(** * zeabur/astro: adapters, Vue virtual module and blog actions

    A shallow embedding of the deployment adapters
    (packages/integrations/zeabur/src/serverless/adapter.ts,
    serverless/entrypoint.ts, static/adapter.ts), of the virtual-module
    plugin of the Vue integration and of the [comment] action of the
    actions-blog fixture, followed by the properties proved about them.

    JavaScript strings are modelled as [string] (one [ascii] per code
    unit, so the model covers strings of code units below 256), thrown
    exceptions as the [Throw] constructor of a result type, closure
    variables of an integration as a record threaded through its hooks,
    and calls to the helper modules that are not part of this development
    (../lib/fs.js, ../lib/nft.js, ./middleware.js) as events appended to
    a log. *)

From Stdlib Require Import String Ascii List ZArith Lia Bool.
Import ListNotations.
Open Scope string_scope.
Set Warnings "-register-all".

(* ================================================================== *)
(** * JavaScript builtins used by the sources *)
(* ================================================================== *)

Module JS.

(** The double quote, line feed and tab characters. *)
Definition dq : string := String (ascii_of_nat 34) EmptyString.
Definition nl : string := String (ascii_of_nat 10) EmptyString.
Definition tab : string := String (ascii_of_nat 9) EmptyString.
Definition backslash : string := String (ascii_of_nat 92) EmptyString.
Definition backtick : string := String (ascii_of_nat 96) EmptyString.

(** Truthiness of [string | undefined]: undefined and the empty string
    are falsy. *)
Definition truthy (s : option string) : bool :=
  match s with
  | None => false
  | Some EmptyString => false
  | Some (String _ _) => true
  end.

(** [a || b] on a possibly undefined string. *)
Definition or_else (s : option string) (d : string) : string :=
  match s with
  | Some (String c r) => String c r
  | _ => d
  end.

(** [s.startsWith(p)]. *)
Definition startsWith (s p : string) : bool := String.prefix p s.

(** [s.slice(n)] for [0 <= n]. *)
Fixpoint slice_from (n : nat) (s : string) : string :=
  match n, s with
  | O, _ => s
  | S _, EmptyString => EmptyString
  | S n', String _ r => slice_from n' r
  end.

(** [s.slice(0, n)] for [0 <= n]. *)
Fixpoint slice_to (n : nat) (s : string) : string :=
  match n, s with
  | O, _ => EmptyString
  | S _, EmptyString => EmptyString
  | S n', String c r => String c (slice_to n' r)
  end.

(** [s.endsWith(p)]. *)
Definition endsWith (s p : string) : bool :=
  (String.length p <=? String.length s)%nat
  && String.eqb (slice_from (String.length s - String.length p) s) p.

(** [s.replace(pat, rep)] with a string pattern: only the first
    occurrence is replaced ([rep] holds no [$] pattern in the sources). *)
Fixpoint replace (pat rep s : string) {struct s} : string :=
  if String.prefix pat s then rep ++ slice_from (String.length pat) s
  else match s with
       | EmptyString => EmptyString
       | String c r => String c (replace pat rep r)
       end.

(** [s.replace(/\.mjs$/, '')]: the pattern is anchored at the end of
    the input. *)
Definition replace_mjs_end (s : string) : string :=
  if endsWith s ".mjs" then slice_to (String.length s - 4) s else s.

(** [s] without the prefix [p], when it has it. *)
Definition without_prefix (p s : string) : string :=
  if String.prefix p s then slice_from (String.length p) s else s.

(** [s] without the suffix [p], when it has it. *)
Definition without_suffix (p s : string) : string :=
  if endsWith s p then slice_to (String.length s - String.length p) s else s.

(** [s.includes(sub)]. *)
Fixpoint includes (s sub : string) {struct s} : bool :=
  if String.prefix sub s then true
  else match s with
       | EmptyString => false
       | String _ r => includes r sub
       end.

(** [s.split('.')[0]]: the part before the first dot. *)
Fixpoint before_dot (s : string) : string :=
  match s with
  | EmptyString => EmptyString
  | String c r =>
      if Ascii.eqb c "."%char then EmptyString else String c (before_dot r)
  end.

(** [path.basename(p)] of node:path (POSIX flavour, no suffix argument):
    trailing slashes are ignored and the last segment is returned. *)
Definition is_slash (c : ascii) : bool := Ascii.eqb c "/"%char.

Fixpoint drop_slashes (l : list ascii) : list ascii :=
  match l with
  | c :: r => if is_slash c then drop_slashes r else l
  | [] => []
  end.

Fixpoint take_segment (l : list ascii) : list ascii :=
  match l with
  | c :: r => if is_slash c then [] else c :: take_segment r
  | [] => []
  end.

Definition basename (p : string) : string :=
  string_of_list_ascii
    (rev (take_segment (drop_slashes (rev (list_ascii_of_string p))))).

(** [JSON.stringify(s)] for a string [s]: the quote and the backslash
    are escaped, control characters below U+0020 are written with their
    short escape or as [\u00xx], everything else is copied. *)
Definition hex_digit (n : nat) : string :=
  String.substring n 1 "0123456789abcdef".

Definition json_escape (c : ascii) : string :=
  let n := nat_of_ascii c in
  if (n =? 34)%nat then backslash ++ dq
  else if (n =? 92)%nat then backslash ++ backslash
  else if (n =? 8)%nat then backslash ++ "b"
  else if (n =? 9)%nat then backslash ++ "t"
  else if (n =? 10)%nat then backslash ++ "n"
  else if (n =? 12)%nat then backslash ++ "f"
  else if (n =? 13)%nat then backslash ++ "r"
  else if (n <? 32)%nat then
    backslash ++ "u00" ++ hex_digit (n / 16) ++ hex_digit (n mod 16)
  else String c EmptyString.

Fixpoint json_escape_all (s : string) : string :=
  match s with
  | EmptyString => EmptyString
  | String c r => json_escape c ++ json_escape_all r
  end.

Definition JSON_stringify (s : string) : string :=
  dq ++ json_escape_all s ++ dq.

(** Outcome of a call that may throw: [Ok v] is a normal return,
    [Throw e] an exception of type [E] in flight. *)
Inductive result (E A : Type) : Type :=
| Ok (v : A)
| Throw (e : E).
Arguments Ok {E A} v.
Arguments Throw {E A} e.

Definition bind {E A B} (m : result E A) (k : A -> result E B) : result E B :=
  match m with
  | Ok v => k v
  | Throw e => Throw e
  end.

End JS.

Notation "'let*' x ':=' m 'in' k" := (JS.bind m (fun x => k))
  (at level 10, x pattern, m at level 100, k at level 200).

(* ================================================================== *)
(** * The Vue integration: the virtual application entry point *)
(* ================================================================== *)

Module Vue.

Definition VIRTUAL_MODULE_ID : string := "virtual:@astrojs/vue/app".
Definition RESOLVED_VIRTUAL_MODULE_ID : string :=
  String (ascii_of_nat 0) VIRTUAL_MODULE_ID.

(** The part of [Options] the plugin reads. *)
Record Options : Type := { opt_appEntrypoint : option string }.

(** The closure variables of [virtualAppEntrypoint]; each is undefined
    until the hook that assigns it has run. *)
Record Plugin : Type := {
  isBuild : option bool;
  root : option string;
  appEntrypoint : option string;
}.

Definition fresh : Plugin :=
  {| isBuild := None; root := None; appEntrypoint := None |}.

(** [config(_, { command })]. *)
Definition config (command : string) (p : Plugin) : Plugin :=
  {| isBuild := Some (String.eqb command "build");
     root := root p;
     appEntrypoint := appEntrypoint p |}.

Section WithPath.

(** [path.resolve(root, p)] of node:path. *)
Variable path_resolve : string -> string -> string.

(** [options?.appEntrypoint]. *)
Definition configured (options : option Options) : option string :=
  match options with
  | Some o => opt_appEntrypoint o
  | None => None
  end.

(** [configResolved(config)]. *)
Definition configResolved (options : option Options) (config_root : string)
    (p : Plugin) : Plugin :=
  {| isBuild := isBuild p;
     root := Some config_root;
     appEntrypoint :=
       if JS.truthy (configured options) then
         match configured options with
         | Some e =>
             Some (if JS.startsWith e "." then path_resolve config_root e
                   else e)
         | None => appEntrypoint p
         end
       else appEntrypoint p |}.

End WithPath.

(** [resolveId(id)]; [None] is the undefined of a function that falls
    off its end. *)
Definition resolveId (id : string) : option string :=
  if String.eqb id VIRTUAL_MODULE_ID then Some RESOLVED_VIRTUAL_MODULE_ID
  else None.

(** [!isBuild]. *)
Definition not_build (p : Plugin) : bool :=
  match isBuild p with
  | Some true => false
  | _ => true
  end.

(** The warning statement placed in the [else] branch outside builds. *)
Definition warning (p : Plugin) (entry : string) : string :=
  if not_build p then
    "console.warn(" ++ JS.dq ++ "[@astrojs/vue] appEntrypoint " ++ JS.backtick
      ++ JS.dq ++ " + " ++ JS.JSON_stringify entry ++ " + " ++ JS.dq
      ++ JS.backtick
      ++ " does not export a default function. Check out https://docs.astro.build/en/guides/integrations-guide/vue/#appentrypoint."
      ++ JS.dq ++ ");"
  else EmptyString.

(** [load(id)]. *)
Definition load (p : Plugin) (id : string) : option string :=
  if String.eqb id RESOLVED_VIRTUAL_MODULE_ID then
    if JS.truthy (appEntrypoint p) then
      match appEntrypoint p with
      | Some entry =>
          Some ("import * as mod from " ++ JS.JSON_stringify entry ++ ";"
                ++ JS.nl ++ JS.nl
                ++ "export const setup = async (app) => {" ++ JS.nl
                ++ JS.tab ++ "if ('default' in mod) {" ++ JS.nl
                ++ JS.tab ++ JS.tab ++ "await mod.default(app);" ++ JS.nl
                ++ JS.tab ++ "} else {" ++ JS.nl
                ++ JS.tab ++ JS.tab ++ warning p entry ++ JS.nl
                ++ JS.tab ++ "}" ++ JS.nl
                ++ "}")
      | None => Some "export const setup = () => {};"
      end
    else Some "export const setup = () => {};"
  else None.

(** The states of the plugin: Vite calls [config] and [configResolved]
    on the plugin [virtualAppEntrypoint(options)] returned. *)
Inductive reachable (path_resolve : string -> string -> string)
    (options : option Options) : Plugin -> Prop :=
| reach_fresh : reachable path_resolve options fresh
| reach_config command p :
    reachable path_resolve options p ->
    reachable path_resolve options (config command p)
| reach_configResolved config_root p :
    reachable path_resolve options p ->
    reachable path_resolve options
      (configResolved path_resolve options config_root p).

End Vue.

(* ================================================================== *)
(** * What the adapters share: URLs, helper calls, effects *)
(* ================================================================== *)

Module Host.

(** JSON values handed to [writeJson]. *)
Inductive Json : Type :=
| JString (s : string)
| JBool (b : bool)
| JArray (items : list Json)
| JObject (fields : list (string * Json)).

(** Reading a manifest back. *)
Fixpoint field (name : string) (fields : list (string * Json)) : option Json :=
  match fields with
  | [] => None
  | (k, v) :: rest => if String.eqb k name then Some v else field name rest
  end.

Definition is_string (j : option Json) (s : string) : bool :=
  match j with
  | Some (JString t) => String.eqb t s
  | _ => false
  end.

(** [has_route j s d]: the [routes] of the manifest [j] hold an entry
    with [src] equal to [s] and [dest] equal to [d]. *)
Definition has_route (j : Json) (s d : string) : bool :=
  match j with
  | JObject fields =>
      match field "routes" fields with
      | Some (JArray items) =>
          existsb (fun item =>
                     match item with
                     | JObject f => is_string (field "src" f) s
                                    && is_string (field "dest" f) d
                     | _ => false
                     end) items
      | _ => false
      end
  | _ => false
  end.

(** The platform interface the adapters are written against: WHATWG
    URLs, node:url, fast-glob, [Intl.DateTimeFormat] and the pure parts
    of the helper modules ../lib/fs.js, ../lib/prerender.js and
    ./middleware.js. *)
Class Api : Type := {
  URL : Type;
  (** [AstroIntegrationLogger], handed on to the dependency tracer. *)
  Logger : Type;
  (** The object [NTF_CACHE] the tracer keeps its cache in; the
      integration only passes the reference on. *)
  Cache : Type;
  (** [new URL(relative, base)]. *)
  new_URL : string -> URL -> URL;
  (** [url.toString()]. *)
  URL_toString : URL -> string;
  fileURLToPath : URL -> string;
  pathToFileURL : string -> URL;
  (** [glob.sync(pattern)], the paths matching on the build machine. *)
  glob_sync : string -> list string;
  (** [getOutput(root)] of ../lib/fs.js. *)
  getOutput : URL -> URL;
  (** The location [generateEdgeMiddleware] resolves to. *)
  bundledMiddleware : URL -> string -> URL -> URL;
  (** [new Intl.DateTimeFormat(undefined, { dateStyle: 'long' }).format]
      applied to the date a string denotes. *)
  formatLongDate : string -> string;
}.

Section Effects.
Context `{Api}.

(** A call into a helper module or the console, in program order. *)
Inductive Event : Type :=
| CopyDependenciesToFunction
    (entry outDir : URL) (includeFiles excludeFiles : list URL)
    (logger : Logger) (cache : Cache)
| WriteJson (file : URL) (value : Json)
| RemoveDir (dir : URL)
| EmptyDir (dir : URL)
| GenerateEdgeMiddleware
    (middlewareEntryPoint : URL) (outPath : string) (handlerPath : URL)
| ConsoleWarn (message : string).

(** Exceptions raised by the adapters themselves. *)
Inductive Error : Type :=
| TypeError (message : string)
| AstroError (message : string)
| PlainError (message : string).

End Effects.

(** A computation over closure variables [S] that logs events and may
    throw; the state and the log reached when the exception is raised
    are kept. *)
Definition M `{Api} (S A : Type) : Type :=
  S -> list Event -> JS.result Error A * S * list Event.

Definition ret `{Api} {S A} (a : A) : M S A :=
  fun s log => (JS.Ok a, s, log).

Definition bindM `{Api} {S A B} (m : M S A) (k : A -> M S B) : M S B :=
  fun s log =>
    match m s log with
    | (JS.Ok a, s', log') => k a s' log'
    | (JS.Throw e, s', log') => (JS.Throw e, s', log')
    end.

Definition throw `{Api} {S A} (e : Error) : M S A :=
  fun s log => (JS.Throw e, s, log).

Definition emit `{Api} {S} (e : Event) : M S unit :=
  fun s log => (JS.Ok tt, s, (log ++ [e])%list).

Definition get `{Api} {S} : M S S :=
  fun s log => (JS.Ok s, s, log).

Definition put `{Api} {S} (s : S) : M S unit :=
  fun _ log => (JS.Ok tt, s, log).

(** [for (const x of xs) { await body(x) }]. *)
Fixpoint for_of `{Api} {S A} (xs : list A) (body : A -> M S unit) : M S unit :=
  match xs with
  | [] => ret tt
  | x :: rest => bindM (body x) (fun _ => for_of rest body)
  end.

End Host.

Notation "x <- m ;; k" := (Host.bindM m (fun x => k))
  (at level 61, m at next level, right associativity).
Notation "m ;; k" := (Host.bindM m (fun _ => k))
  (at level 61, right associativity).

(* ================================================================== *)
(** * The serverless adapter (serverless/adapter.ts) *)
(* ================================================================== *)

(** The model starts with the closure astro:config:done leaves; the
    configuration update of astro:config:setup, the call of
    [setAdapter] and the warnings of the framework's logger have no
    part in the build hooks and are left out. *)

Module Serverless.
Import Host.

Definition PACKAGE_NAME : string := "@zeabur/astro-adapter/serverless".
Definition ASTRO_LOCALS_HEADER : string := "x-astro-locals".
Definition VERCEL_EDGE_MIDDLEWARE_FILE : string := "vercel-edge-middleware".

(** ** SUPPORTED_NODE_VERSIONS and validateRuntime *)

(** What [SUPPORTED_NODE_VERSIONS[key]] evaluates to: one of the three
    own entries, a member inherited from [Object.prototype] (the table
    is an object literal), or undefined. *)
Inductive Property : Type :=
| Own (status : string) (removal : option string)
| Inherited
| Undefined.

Definition Object_prototype_keys : list string :=
  [ "constructor"; "__defineGetter__"; "__defineSetter__"; "hasOwnProperty";
    "__lookupGetter__"; "__lookupSetter__"; "isPrototypeOf";
    "propertyIsEnumerable"; "toString"; "valueOf"; "__proto__";
    "toLocaleString" ].

Definition SUPPORTED_NODE_VERSIONS (key : string) : Property :=
  if String.eqb key "16" then Own "deprecated" (Some "February 6 2024")
  else if String.eqb key "18" then Own "current" None
  else if String.eqb key "20" then Own "beta" None
  else if existsb (String.eqb key) Object_prototype_keys then Inherited
  else Undefined.

Section Runtime.
Context `{Api} {S : Type}.

(** [support.status]: reading a member of undefined throws. *)
Definition status_of (support : Property) : M S (option string) :=
  match support with
  | Own status _ => ret (Some status)
  | Inherited => ret None
  | Undefined =>
      throw (TypeError "Cannot read properties of undefined (reading 'status')")
  end.

Definition removal_of (support : Property) : string :=
  match support with
  | Own _ (Some d) => formatLongDate d
  | _ => formatLongDate EmptyString
  end.

Definition status_is (status : option string) (expected : string) : bool :=
  match status with
  | Some s => String.eqb s expected
  | None => false
  end.

Definition warn (message : string) : M S unit :=
  emit (ConsoleWarn ("[" ++ PACKAGE_NAME ++ "] " ++ message)).

(** [validateRuntime()], reading [process.version]. *)
Definition validateRuntime (process_version : string) : M S unit :=
  let version := JS.slice_from 1 process_version in
  let major := JS.before_dot version in
  let support := SUPPORTED_NODE_VERSIONS major in
  status <- status_of support ;;
  if status_is status "beta" then
    warn ("The local Node.js version (" ++ major
          ++ ") is currently in beta for Vercel Serverless Functions.") ;;
    warn ("Make sure to update your Vercel settings to use " ++ major ++ ".")
  else
    match support with
    | Undefined =>
        warn ("The local Node.js version (" ++ major
              ++ ") is not supported by Vercel Serverless Functions.") ;;
        warn "Your project will use Node.js 18 as the runtime instead." ;;
        warn "Consider switching your local version to 18."
    | _ =>
        status <- status_of support ;;
        if status_is status "deprecated" then
          warn ("Your project is being built for Node.js " ++ major
                ++ " as the runtime.") ;;
          warn ("This version is deprecated by Vercel Serverless Functions, and scheduled to be disabled on "
                ++ removal_of support ++ ".") ;;
          warn "Consider upgrading your local version to 18."
        else ret tt
    end.

End Runtime.

(** ** Configuration and closure variables *)

(** [vite.assetsInclude] is typed [unknown]: a string, an array of such
    values, or something else (a RegExp). *)
Inductive GlobPattern : Type :=
| GlobString (pattern : string)
| GlobArray (patterns : list GlobPattern)
| GlobOther.

Record RouteData : Type := {
  component : string;
  pattern_source : string;
}.

(** An element of [routeDefinitions]. *)
Record RouteDefinition : Type := { src : string; dest : string }.

(** [VercelServerlessConfig] after its defaults are applied. *)
Record Options : Type := {
  includeFiles : option (list string);
  excludeFiles : option (list string);
  functionPerRoute : bool;
  edgeMiddleware : bool;
  maxDuration : option Z;
}.

Section Adapter.
Context `{Api}.

(** The part of [AstroConfig] the adapter reads. *)
Record AstroConfig : Type := {
  root : URL;
  outDir : URL;
  srcDir : URL;
  build_server : URL;
  build_serverEntry : string;
  output : string;
  vite_assetsInclude : option GlobPattern;
}.

(** The [let] and [const] variables of [vercelServerless] once
    astro:config:done has assigned [_config], [buildTempFolder] and
    [serverEntry]; [_entryPoints] stays undefined until
    astro:build:ssr. *)
Record Closure : Type := {
  _config : AstroConfig;
  buildTempFolder : URL;
  serverEntry : string;
  _entryPoints : option (list (RouteData * URL));
  extraFilesToInclude : list URL;
  NTF_CACHE : Cache;
}.

Definition set_entryPoints (e : list (RouteData * URL)) (c : Closure)
    : Closure :=
  {| _config := _config c;
     buildTempFolder := buildTempFolder c;
     serverEntry := serverEntry c;
     _entryPoints := Some e;
     extraFilesToInclude := extraFilesToInclude c;
     NTF_CACHE := NTF_CACHE c |}.

(** [extraFilesToInclude.push(...files)]. *)
Definition push_extraFiles (files : list URL) (c : Closure) : Closure :=
  {| _config := _config c;
     buildTempFolder := buildTempFolder c;
     serverEntry := serverEntry c;
     _entryPoints := _entryPoints c;
     extraFilesToInclude := (extraFilesToInclude c ++ files)%list;
     NTF_CACHE := NTF_CACHE c |}.

(** astro:config:done: the closure it leaves, or the error it throws
    for a static output; [cache] is the object [Object.create(null)]
    made when the integration was built. *)
Definition config_done (cache : Cache) (config : AstroConfig)
    : JS.result Error Closure :=
  if String.eqb (output config) "static" then
    JS.Throw (AstroError
                ("`output: " ++ JS.dq ++ "server" ++ JS.dq ++ "` or `output: "
                 ++ JS.dq ++ "hybrid" ++ JS.dq
                 ++ "` is required to use the serverless adapter."))
  else
    JS.Ok {| _config := config;
             buildTempFolder := build_server config;
             serverEntry := build_serverEntry config;
             _entryPoints := None;
             extraFilesToInclude := [];
             NTF_CACHE := cache |}.

(** ** astro:build:ssr *)

Definition build_ssr (entryPoints : list (RouteData * URL))
    (middlewareEntryPoint : option URL) : M Closure unit :=
  c <- get ;;
  put (set_entryPoints entryPoints c) ;;
  match middlewareEntryPoint with
  | Some entry =>
      c <- get ;;
      let outPath := fileURLToPath (buildTempFolder c) in
      let vercelEdgeMiddlewareHandlerPath :=
        new_URL VERCEL_EDGE_MIDDLEWARE_FILE (srcDir (_config c)) in
      emit (GenerateEdgeMiddleware entry outPath
              vercelEdgeMiddlewareHandlerPath) ;;
      let bundledMiddlewarePath :=
        bundledMiddleware entry outPath vercelEdgeMiddlewareHandlerPath in
      c <- get ;;
      put (push_extraFiles [bundledMiddlewarePath] c)
  | None => ret tt
  end.

(** ** createFunctionFolder *)

Record CreateFunctionFolderArgs : Type := {
  functionName : string;
  entry : URL;
  config : AstroConfig;
  arg_logger : Logger;
  arg_NTF_CACHE : Cache;
  arg_includeFiles : list URL;
  arg_excludeFiles : option (list string);
  arg_maxDuration : option Z;
}.

(** [files?.map((file) => new URL(file, base)) || []]. *)
Definition map_or_empty (files : option (list string)) (base : URL)
    : list URL :=
  match files with
  | Some l => map (fun file => new_URL file base) l
  | None => []
  end.

Definition createFunctionFolder {S} (a : CreateFunctionFolderArgs)
    : M S unit :=
  let functionFolder :=
    new_URL ("./functions/" ++ functionName a ++ ".func/")
            (outDir (config a)) in
  emit (CopyDependenciesToFunction (entry a) functionFolder
          (arg_includeFiles a)
          (map_or_empty (arg_excludeFiles a) (root (config a)))
          (arg_logger a) (arg_NTF_CACHE a)) ;;
  emit (WriteJson (new_URL "./package.json" functionFolder)
          (JObject [("type", JString "module")])).

(** ** astro:build:done *)

(** The files [mergeGlobbedIncludes(globPattern)] pushes, in order. *)
Fixpoint mergeGlobbedIncludes (globPattern : GlobPattern) : list URL :=
  match globPattern with
  | GlobString p => map pathToFileURL (glob_sync p)
  | GlobArray l => flat_map mergeGlobbedIncludes l
  | GlobOther => []
  end.

Definition assets_truthy (g : option GlobPattern) : bool :=
  match g with
  | None => false
  | Some (GlobString p) => JS.truthy (Some p)
  | Some _ => true
  end.

Definition getRouteFuncName (route : RouteData) : string :=
  JS.replace "src/pages/" EmptyString (component route).

Definition getFallbackFuncName (entryFile : URL) : string :=
  JS.replace_mjs_end
    (JS.replace "entry." EmptyString
       (JS.basename (URL_toString entryFile))).

(** The [func] of one loop iteration. *)
Definition func (route : RouteData) (entryFile : URL) : string :=
  if JS.startsWith (component route) "src/pages/"
  then getRouteFuncName route
  else getFallbackFuncName entryFile.

(** The name as the specification words it, to be compared with
    [func]: the component path with its src/pages/ prefix stripped for
    a page, otherwise the base name of the entry file with the entry.
    prefix and the .mjs suffix removed. *)
Definition func_as_specified (route : RouteData) (entryFile : URL) : string :=
  if JS.startsWith (component route) "src/pages/"
  then JS.without_prefix "src/pages/" (component route)
  else JS.without_suffix ".mjs"
         (JS.without_prefix "entry."
            (JS.basename (URL_toString entryFile))).

(** The [for ... of _entryPoints] loop, threading [routeDefinitions]. *)
Fixpoint each_entry (o : Options) (logger : Logger)
    (filesToInclude : list URL) (entries : list (RouteData * URL))
    (routeDefinitions : list RouteDefinition)
    : M Closure (list RouteDefinition) :=
  match entries with
  | [] => ret routeDefinitions
  | (route, entryFile) :: rest =>
      c <- get ;;
      createFunctionFolder
        {| functionName := func route entryFile;
           entry := entryFile;
           config := _config c;
           arg_logger := logger;
           arg_NTF_CACHE := NTF_CACHE c;
           arg_includeFiles := filesToInclude;
           arg_excludeFiles := excludeFiles o;
           arg_maxDuration := maxDuration o |} ;;
      each_entry o logger filesToInclude rest
        (routeDefinitions
           ++ [{| src := pattern_source route;
                  dest := func route entryFile |}])%list
  end.

(** The hook up to the point where [routeDefinitions] is complete. *)
Definition package_functions (o : Options) (process_version : string)
    (logger : Logger) : M Closure (list RouteDefinition) :=
  c <- get ;;
  (if assets_truthy (vite_assetsInclude (_config c)) then
     match vite_assetsInclude (_config c) with
     | Some g => put (push_extraFiles (mergeGlobbedIncludes g) c)
     | None => ret tt
     end
   else ret tt) ;;
  c <- get ;;
  let routeDefinitions : list RouteDefinition := [] in
  let filesToInclude :=
    (map_or_empty (includeFiles o) (root (_config c))
       ++ extraFilesToInclude c)%list in
  validateRuntime process_version ;;
  match _entryPoints c with
  | None =>
      throw (TypeError "Cannot read properties of undefined (reading 'size')")
  | Some [] =>
      createFunctionFolder
        {| functionName := "__astro";
           entry := new_URL (serverEntry c) (buildTempFolder c);
           config := _config c;
           arg_logger := logger;
           arg_NTF_CACHE := NTF_CACHE c;
           arg_includeFiles := filesToInclude;
           arg_excludeFiles := excludeFiles o;
           arg_maxDuration := maxDuration o |} ;;
      ret (routeDefinitions
             ++ [{| src := "/.*"; dest := "__astro" |}])%list
  | Some entries =>
      each_entry o logger filesToInclude entries routeDefinitions
  end.

(** The value written to config.json. *)
Definition manifest : Json :=
  JObject [ ("routes",
             JArray [JObject [("src", JString ".*");
                              ("dest", JString "/__astro")]]);
            ("containerized", JBool false) ].

Definition build_done (o : Options) (process_version : string)
    (logger : Logger) : M Closure unit :=
  routeDefinitions <- package_functions o process_version logger ;;
  c <- get ;;
  emit (WriteJson (new_URL "./config.json" (outDir (_config c))) manifest) ;;
  emit (RemoveDir (buildTempFolder c)).

(** ** Reading the log and the manifest *)

(** The major version [validateRuntime] looks up. *)
Definition node_major (process_version : string) : string :=
  JS.before_dot (JS.slice_from 1 process_version).

Definition is_warning (e : Event) : Prop :=
  match e with
  | ConsoleWarn _ => True
  | _ => False
  end.

(** The folders the dependency tracer was asked to fill. *)
Definition function_folders (log : list Event) : list URL :=
  flat_map (fun e => match e with
                     | CopyDependenciesToFunction _ outDir _ _ _ _ => [outDir]
                     | _ => []
                     end) log.

(** The values written to a file, in order. *)
Definition written (file : URL) (eqb : URL -> URL -> bool) (log : list Event)
    : list Json :=
  flat_map (fun e => match e with
                     | WriteJson f v => if eqb f file then [v] else []
                     | _ => []
                     end) log.

(** The folder of the function [name]: the [functionFolder] of
    [createFunctionFolder]. *)
Definition folder_of (config : AstroConfig) (name : string) : URL :=
  new_URL ("./functions/" ++ name ++ ".func/") (outDir config).

(** The helper calls of one iteration of the loop over [_entryPoints]. *)
Definition entry_events (o : Options) (logger : Logger) (c : Closure)
    (filesToInclude : list URL) (e : RouteData * URL) : list Event :=
  let folder := folder_of (_config c) (func (fst e) (snd e)) in
  [ CopyDependenciesToFunction (snd e) folder filesToInclude
      (map_or_empty (excludeFiles o) (root (_config c)))
      logger (NTF_CACHE c);
    WriteJson (new_URL "./package.json" folder)
      (JObject [("type", JString "module")]) ].

(** The closure once the globbed [vite.assetsInclude] files are pushed
    to [extraFilesToInclude]. *)
Definition merged (c : Closure) : Closure :=
  if assets_truthy (vite_assetsInclude (_config c)) then
    match vite_assetsInclude (_config c) with
    | Some g => push_extraFiles (mergeGlobbedIncludes g) c
    | None => c
    end
  else c.

(** [createFunctionFolder] arguments that differ at most in
    [maxDuration]. *)
Definition same_but_maxDuration (a b : CreateFunctionFolderArgs) : Prop :=
  functionName a = functionName b
  /\ entry a = entry b
  /\ config a = config b
  /\ arg_logger a = arg_logger b
  /\ arg_NTF_CACHE a = arg_NTF_CACHE b
  /\ arg_includeFiles a = arg_includeFiles b
  /\ arg_excludeFiles a = arg_excludeFiles b.

End Adapter.

End Serverless.

(* ================================================================== *)
(** * The static adapter (static/adapter.ts) *)
(* ================================================================== *)

Module Static.
Import Host.

Definition PACKAGE_NAME : string := "@zeabur/astro-adapter/static".

Section Adapter.
Context `{Api}.

Record AstroConfig : Type := {
  root : URL;
  output : string;
}.

(** [isServerLikeOutput(config)] of ../lib/prerender.js. *)
Variable isServerLikeOutput : AstroConfig -> bool.

(** The closure of [vercelStatic] once astro:config:done has assigned
    [_config]. *)
Record Closure : Type := { _config : AstroConfig }.

Definition config_done (config : AstroConfig) : JS.result Error Closure :=
  if isServerLikeOutput config then
    JS.Throw (PlainError (PACKAGE_NAME ++ " should be used with output: 'static'"))
  else JS.Ok {| _config := config |}.

(** astro:build:start. *)
Definition build_start : M Closure unit :=
  c <- get ;;
  emit (EmptyDir (getOutput (root (_config c)))).

(** astro:build:done. *)
Definition build_done : M Closure unit :=
  c <- get ;;
  emit (WriteJson
          (new_URL "./config.json" (getOutput (root (_config c))))
          (JObject [ ("routes",
                      JArray [JObject [("src", JString ".*");
                                       ("dest", JString "/__astro")]]);
                     ("containerized", JBool false) ])).

End Adapter.

End Static.

(* ================================================================== *)
(** * The serverless entry point (serverless/entrypoint.ts) *)
(* ================================================================== *)

Module Entrypoint.

(** A thrown value, as far as the handler inspects it: an object with
    optional [status] and [reason] members, or null / undefined. *)
Inductive Thrown : Type :=
| Exception (name : string) (status : option Z) (reason : option string)
| Nullish.

Record IncomingMessage : Type := {
  host : option string;
  payload : string;
}.

(** The members of [ServerResponse] the handler writes: [statusCode]
    and the data passed to [end]. *)
Record ServerResponse : Type := {
  statusCode : Z;
  ended : option string;
}.

(** [App], [getRequest] and [setResponse] belong to astro/app and to
    ./request-transform.js; each call returns or throws. *)
Class Runtime : Type := {
  Request : Type;
  RouteData : Type;
  Locals : Type;
  Response : Type;
  getRequest : string -> IncomingMessage -> JS.result Thrown Request;
  app_match : Request -> JS.result Thrown (option RouteData);
  (** [request.headers.get(name)], null when the header is absent. *)
  headers_get : Request -> string -> option string;
  JSON_parse : string -> JS.result Thrown Locals;
  (** The object literal [{}]. *)
  no_locals : Locals;
  app_render :
    Request -> option RouteData -> Locals -> JS.result Thrown Response;
  setResponse :
    Response -> ServerResponse -> JS.result Thrown unit * ServerResponse;
}.

Section Handler.
Context `{Runtime}.

(** The interpolation of [req.headers.host] in the template literal. *)
Definition host_text (req : IncomingMessage) : string :=
  match host req with
  | Some h => h
  | None => "undefined"
  end.

(** [err.status || 400]. *)
Definition status_or_400 (status : option Z) : Z :=
  match status with
  | Some s => if (s =? 0)%Z then 400%Z else s
  | None => 400%Z
  end.

(** The [catch (err)] clause around [getRequest]. *)
Definition on_bad_request (err : Thrown) (res : ServerResponse)
    : JS.result Thrown unit * ServerResponse :=
  match err with
  | Exception _ status reason =>
      (JS.Ok tt,
       {| statusCode := status_or_400 status;
          ended := Some (JS.or_else reason "Invalid request body") |})
  | Nullish =>
      (JS.Throw (Exception "TypeError" None None), res)
  end.

(** The [locals] passed to [app.render]. *)
Definition read_locals (request : Request) : JS.result Thrown Locals :=
  match headers_get request Serverless.ASTRO_LOCALS_HEADER with
  | Some localsAsString =>
      if JS.truthy (Some localsAsString) then JSON_parse localsAsString
      else JS.Ok no_locals
  | None => JS.Ok no_locals
  end.

(** The statements after the [try] block. *)
Definition respond (request : Request) (res : ServerResponse)
    : JS.result Thrown unit * ServerResponse :=
  match app_match request with
  | JS.Throw e => (JS.Throw e, res)
  | JS.Ok routeData =>
      match read_locals request with
      | JS.Throw e => (JS.Throw e, res)
      | JS.Ok locals =>
          match app_render request routeData locals with
          | JS.Throw e => (JS.Throw e, res)
          | JS.Ok response => setResponse response res
          end
      end
  end.

Definition handler (req : IncomingMessage) (res : ServerResponse)
    : JS.result Thrown unit * ServerResponse :=
  match getRequest ("https://" ++ host_text req) req with
  | JS.Throw err => on_bad_request err res
  | JS.Ok request => respond request res
  end.

(** An error [e] is thrown by one of the calls the handler makes for
    [req]. *)
Inductive thrown_while_handling (req : IncomingMessage)
    (res : ServerResponse) (e : Thrown) : Prop :=
| in_getRequest :
    getRequest ("https://" ++ host_text req) req = JS.Throw e ->
    thrown_while_handling req res e
| in_respond request :
    getRequest ("https://" ++ host_text req) req = JS.Ok request ->
    fst (respond request res) = JS.Throw e ->
    thrown_while_handling req res e.

End Handler.

(** The reading of the specification: whatever is thrown while a
    request is handled reaches the caller of the handler. *)
Definition propagates_every_error : Prop :=
  forall (R : Runtime) (req : IncomingMessage) (res : ServerResponse)
         (e : Thrown),
    thrown_while_handling req res e -> fst (handler req res) = JS.Throw e.

End Entrypoint.

(* ================================================================== *)
(** * The comment action of the actions-blog fixture *)
(* ================================================================== *)

Module Actions.

Record BlogEntry : Type := { id : string }.

(** A row of the Comment table: the three columns the action fills. *)
Record CommentRow : Type := {
  postId : string;
  body : string;
  author : string;
}.

(** What the handler reaches through astro:content and astro:db. *)
Record World : Type := {
  blog : list BlogEntry;
  Comment : list CommentRow;
}.

Record ActionError : Type := { code : string; message : string }.

(** The object the handler receives once the input is validated. *)
Record Input : Type := {
  in_postId : string;
  in_author : string;
  in_body : string;
}.

(** [db.insert(Comment).values(row).returning().get()]. *)
Definition insert_returning (row : CommentRow) (w : World)
    : CommentRow * World :=
  (row, {| blog := blog w; Comment := (Comment w ++ [row])%list |}).

(** The [handler] of [server.blog.comment]. *)
Definition handler (input : Input) (w : World)
    : JS.result ActionError CommentRow * World :=
  match find (fun b => String.eqb (id b) (in_postId input)) (blog w) with
  | None =>
      (JS.Throw {| code := "NOT_FOUND"; message := "Post not found" |}, w)
  | Some _ =>
      let (comment, w') :=
        insert_returning
          {| postId := in_postId input;
             body := in_body input;
             author := in_author input |} w in
      (JS.Ok comment, w')
  end.

(** Submitted form fields, in order; [form_get] is [FormData.get]. *)
Definition FormData : Type := list (string * string).

Fixpoint form_get (name : string) (f : FormData) : option string :=
  match f with
  | [] => None
  | (k, v) :: rest => if String.eqb k name then Some v else form_get name rest
  end.

(** The fields of the [input] schema that reject the form:
    [z.string()] wants the field present, [.min(10)] wants ten code
    units or more. *)
Definition issues (f : FormData) : list string :=
  ((match form_get "postId" f with Some _ => [] | None => ["postId"] end)
   ++ (match form_get "author" f with Some _ => [] | None => ["author"] end)
   ++ (match form_get "body" f with
       | Some b => if (10 <=? String.length b)%nat then [] else ["body"]
       | None => ["body"]
       end))%list.

(** What a call of the action yields. *)
Inductive Outcome : Type :=
| InputError (fields : list string)
| Failed (e : ActionError)
| Data (row : CommentRow).

(** Modelled from the spec: [defineAction] of astro:actions with
    [accept: 'form'] is not among the sources; following the
    specification's form-validated handlers, it checks the form against
    the [input] schema and calls the handler only when the check
    passes. *)
Definition comment (f : FormData) (w : World) : Outcome * World :=
  match issues f, form_get "postId" f, form_get "author" f,
        form_get "body" f with
  | [], Some p, Some a, Some b =>
      match handler {| in_postId := p; in_author := a; in_body := b |} w with
      | (JS.Ok row, w') => (Data row, w')
      | (JS.Throw e, w') => (Failed e, w')
      end
  | fields, _, _, _ => (InputError fields, w)
  end.

End Actions.

(* ================================================================== *)
(** * A concrete platform, for running the model *)
(* ================================================================== *)

Module Sample.

(** URLs as their text; a relative reference is resolved by appending
    it, without its leading [./], to a base that ends in a slash. *)
Definition resolve (relative base : string) : string :=
  base ++ (if String.prefix "./" relative then JS.slice_from 2 relative
           else relative).

#[local] Instance api : Host.Api := {|
  Host.URL := string;
  Host.Logger := unit;
  Host.Cache := unit;
  Host.new_URL := resolve;
  Host.URL_toString := fun u => u;
  Host.fileURLToPath := fun u => JS.slice_from 7 u;
  Host.pathToFileURL := fun p => "file://" ++ p;
  Host.glob_sync := fun _ => [];
  Host.getOutput := fun r => resolve "./.zeabur/output/" r;
  Host.bundledMiddleware := fun _ outPath _ =>
    "file://" ++ outPath ++ "middleware.mjs";
  Host.formatLongDate := fun d => d;
|}.

(** A runtime whose [getRequest] rejects every request and whose other
    calls succeed. *)
#[local] Instance rejecting : Entrypoint.Runtime := {|
  Entrypoint.Request := string;
  Entrypoint.RouteData := string;
  Entrypoint.Locals := string;
  Entrypoint.Response := string;
  Entrypoint.getRequest := fun _ _ =>
    JS.Throw (Entrypoint.Exception "Error" None None);
  Entrypoint.app_match := fun _ => JS.Ok None;
  Entrypoint.headers_get := fun _ _ => None;
  Entrypoint.JSON_parse := fun s => JS.Ok s;
  Entrypoint.no_locals := "{}";
  Entrypoint.app_render := fun _ _ _ => JS.Ok "page";
  Entrypoint.setResponse := fun r res =>
    (JS.Ok tt,
     {| Entrypoint.statusCode := 200; Entrypoint.ended := Some r |});
|}.

(** A runtime that accepts every request and fails while rendering. *)
#[local] Instance failing_render : Entrypoint.Runtime := {|
  Entrypoint.Request := string;
  Entrypoint.RouteData := string;
  Entrypoint.Locals := string;
  Entrypoint.Response := string;
  Entrypoint.getRequest := fun base _ => JS.Ok base;
  Entrypoint.app_match := fun _ => JS.Ok None;
  Entrypoint.headers_get := fun _ _ => None;
  Entrypoint.JSON_parse := fun s => JS.Ok s;
  Entrypoint.no_locals := "{}";
  Entrypoint.app_render := fun _ _ _ =>
    JS.Throw (Entrypoint.Exception "Error" None None);
  Entrypoint.setResponse := fun r res =>
    (JS.Ok tt,
     {| Entrypoint.statusCode := 200; Entrypoint.ended := Some r |});
|}.

Definition config : Serverless.AstroConfig := {|
  Serverless.root := "file:///app/";
  Serverless.outDir := "file:///app/.zeabur/output/";
  Serverless.srcDir := "file:///app/src/";
  Serverless.build_server := "file:///app/dist/";
  Serverless.build_serverEntry := "index.mjs";
  Serverless.output := "server";
  Serverless.vite_assetsInclude := None;
|}.

Definition options : Serverless.Options := {|
  Serverless.includeFiles := None;
  Serverless.excludeFiles := None;
  Serverless.functionPerRoute := true;
  Serverless.edgeMiddleware := false;
  Serverless.maxDuration := None;
|}.

(** The closure astro:config:done leaves for [config]. *)
Definition closure : Serverless.Closure := {|
  Serverless._config := config;
  Serverless.buildTempFolder := "file:///app/dist/";
  Serverless.serverEntry := "index.mjs";
  Serverless._entryPoints := None;
  Serverless.extraFilesToInclude := [];
  Serverless.NTF_CACHE := tt;
|}.

Definition blog_route : Serverless.RouteData := {|
  Serverless.component := "src/pages/blog/[slug].astro";
  Serverless.pattern_source := "^\/blog\/([^/]+?)\/?$";
|}.

Definition injected_route : Serverless.RouteData := {|
  Serverless.component := "node_modules/pkg/feed.astro";
  Serverless.pattern_source := "^\/feed\/?$";
|}.

Definition entryPoints : list (Serverless.RouteData * string) :=
  [ (blog_route, "file:///app/dist/pages/entry.blog_slug.astro.mjs");
    (injected_route, "file:///app/dist/pages/entry.feed.astro.mjs") ].

Definition world : Actions.World := {|
  Actions.blog := [ {| Actions.id := "first-post" |} ];
  Actions.Comment := [];
|}.

(** The closure after astro:build:ssr has stored [entryPoints]. *)
Definition built : Serverless.Closure :=
  Serverless.set_entryPoints entryPoints closure.

Definition blog_entry : string :=
  "file:///app/dist/pages/entry.blog_slug.astro.mjs".

(** Two argument records for [createFunctionFolder] that differ in
    [maxDuration] only. *)
Definition args (maxDuration : option Z) : Serverless.CreateFunctionFolderArgs :=
  {| Serverless.functionName := "__astro";
     Serverless.entry := "file:///app/dist/index.mjs";
     Serverless.config := config;
     Serverless.arg_logger := tt;
     Serverless.arg_NTF_CACHE := tt;
     Serverless.arg_includeFiles := [];
     Serverless.arg_excludeFiles := None;
     Serverless.arg_maxDuration := maxDuration |}.

(** [path.resolve] on a root and a reference that starts with a dot. *)
Definition path_resolve (root p : string) : string :=
  root ++ JS.slice_from 1 p.

Definition vue_options : option Vue.Options :=
  Some {| Vue.opt_appEntrypoint := Some "./src/app" |}.

Definition request : Entrypoint.IncomingMessage :=
  {| Entrypoint.host := Some "example.com"; Entrypoint.payload := "{" |}.

Definition response : Entrypoint.ServerResponse :=
  {| Entrypoint.statusCode := 200; Entrypoint.ended := None |}.

Definition form : Actions.FormData :=
  [ ("postId", "first-post"); ("author", "Ben");
    ("body", "Client: This should be long enough.") ].

End Sample.


(* ================================================================== *)
(** * The rest of the serverless adapter: setup and the later version *)
(* ================================================================== *)

Module ServerlessSetup.
Import Host Serverless.

(** ** The value given as [maxDuration] *)

(** A JavaScript number: a finite double [mantissa * 2^exponent] (both
    zeros have mantissa 0), NaN, or an infinity. *)
Inductive Number : Type :=
| Finite (mantissa exponent : Z)
| NaN
| Infinity (negative : bool).

(** What a caller can pass as [maxDuration]: nothing, a number, or,
    from untyped code, a value of another type, of which only the
    truthiness matters. *)
Inductive Value : Type :=
| NoValue
| Num (n : Number)
| NotNumber (truthy : bool).

(** The truthiness of a value: undefined, both zeros and NaN are falsy. *)
Definition value_truthy (v : Value) : bool :=
  match v with
  | NoValue => false
  | Num (Finite m _) => negb (m =? 0)%Z
  | Num NaN => false
  | Num (Infinity _) => true
  | NotNumber t => t
  end.

(** [n <= 0]. *)
Definition at_most_zero (n : Number) : bool :=
  match n with
  | Finite m _ => (m <=? 0)%Z
  | NaN => false
  | Infinity negative => negative
  end.

(** [0 < n]. *)
Definition above_zero (n : Number) : bool :=
  match n with
  | Finite m _ => (0 <? m)%Z
  | NaN => false
  | Infinity negative => negb negative
  end.

(** [n < 0]. *)
Definition below_zero (n : Number) : bool :=
  match n with
  | Finite m _ => (m <? 0)%Z
  | NaN => false
  | Infinity negative => negative
  end.

(** The checks [vercelServerless] makes on [maxDuration] before it
    builds the integration: [JS.Ok tt] when it goes on to build it. *)
Definition vercelServerless (maxDuration : Value) : JS.result Host.Error unit :=
  if value_truthy maxDuration then
    match maxDuration with
    | Num n =>
        if at_most_zero n then
          JS.Throw (Host.TypeError "maxDuration must be a positive number")
        else JS.Ok tt
    | _ => JS.Throw (Host.TypeError "maxDuration must be a number")
    end
  else JS.Ok tt.

(** What astro:config:setup hands to [logger.warn]: a fixed text, or
    the text
    [maxDuration is set to ${maxDuration} seconds, which is longer than
     the maximum allowed duration of 900 seconds.],
    kept with its number rather than with the digits the template
    literal prints for it. *)
Inductive LoggerMessage : Type :=
| DurationTooLong (maxDuration : Z)
| Message (text : string).

Section Setup.
Context `{Api}.

(** The object handed to [updateConfig]. *)
Record ConfigUpdate : Type := {
  up_outDir : URL;
  up_serverEntry : string;
  up_client : URL;
  up_server : URL;
  up_redirects : bool;
  up_ssr_external : list string;
}.

(** [maxDuration && maxDuration > 900]. *)
Definition too_long (maxDuration : option Z) : bool :=
  match maxDuration with
  | Some d => negb (d =? 0)%Z && (900 <? d)%Z
  | None => false
  end.

(** astro:config:setup of the first version: the messages given to
    [logger.warn], in order, and the update asked of the framework. *)
Definition config_setup (o : Options) (config_root : URL)
    : list LoggerMessage * ConfigUpdate :=
  let warnings :=
    if too_long (maxDuration o) then
      match maxDuration o with
      | Some d =>
          [ DurationTooLong d;
            Message "Please make sure that your plan allows for this duration. See https://vercel.com/docs/functions/serverless-functions/runtimes#maxduration for more information." ]
      | None => []
      end
    else [] in
  let outDir := getOutput config_root in
  (warnings,
   {| up_outDir := outDir;
      up_serverEntry := "index.mjs";
      up_client := new_URL "./static/" outDir;
      up_server := new_URL "./dist/" config_root;
      up_redirects := false;
      up_ssr_external := ["@vercel/nft"] |}).

(** The helper calls astro:build:done makes to package the functions
    of a closure whose entry points are [entries]. *)
Definition packaging_events (o : Options) (logger : Logger) (c : Closure)
    (entries : list (RouteData * URL)) : list Event :=
  let files :=
    (map_or_empty (includeFiles o) (root (_config c))
       ++ extraFilesToInclude c)%list in
  match entries with
  | [] =>
      [ CopyDependenciesToFunction
          (new_URL (serverEntry c) (buildTempFolder c))
          (folder_of (_config c) "__astro") files
          (map_or_empty (excludeFiles o) (root (_config c)))
          logger (NTF_CACHE c);
        WriteJson (new_URL "./package.json" (folder_of (_config c) "__astro"))
          (JObject [("type", JString "module")]) ]
  | _ => flat_map (entry_events o logger c files) entries
  end.

(** The strings a glob value holds, in the order
    [mergeGlobbedIncludes] meets them. *)
Fixpoint patterns (g : GlobPattern) : list string :=
  match g with
  | GlobString p => [p]
  | GlobArray l => flat_map patterns l
  | GlobOther => []
  end.


(** The helper calls of a log, console warnings apart. *)
Definition helper_calls (log : list Event) : list Event :=
  filter (fun e => match e with
                   | ConsoleWarn _ => false
                   | _ => true
                   end) log.

(** A version string [v<major>.<rest>] whose major is made of decimal
    digits. *)
Definition is_digit (c : ascii) : bool :=
  (48 <=? nat_of_ascii c)%nat && (nat_of_ascii c <=? 57)%nat.

Fixpoint all_digits (s : string) : bool :=
  match s with
  | EmptyString => true
  | String c r => is_digit c && all_digits r
  end.

End Setup.

End ServerlessSetup.

(** The later version of serverless/adapter.ts: the same hook without
    the call of [validateRuntime]. *)

Module ServerlessLater.
Import Host Serverless.

Section Adapter.
Context `{Api}.

Definition package_functions (o : Options) (logger : Logger)
    : M Closure (list RouteDefinition) :=
  c <- get ;;
  (if assets_truthy (vite_assetsInclude (_config c)) then
     match vite_assetsInclude (_config c) with
     | Some g => put (push_extraFiles (mergeGlobbedIncludes g) c)
     | None => ret tt
     end
   else ret tt) ;;
  c <- get ;;
  let routeDefinitions : list RouteDefinition := [] in
  let filesToInclude :=
    (map_or_empty (includeFiles o) (root (_config c))
       ++ extraFilesToInclude c)%list in
  match _entryPoints c with
  | None =>
      throw (TypeError "Cannot read properties of undefined (reading 'size')")
  | Some [] =>
      createFunctionFolder
        {| functionName := "__astro";
           entry := new_URL (serverEntry c) (buildTempFolder c);
           config := _config c;
           arg_logger := logger;
           arg_NTF_CACHE := NTF_CACHE c;
           arg_includeFiles := filesToInclude;
           arg_excludeFiles := excludeFiles o;
           arg_maxDuration := maxDuration o |} ;;
      ret (routeDefinitions
             ++ [{| src := "/.*"; dest := "__astro" |}])%list
  | Some entries =>
      each_entry o logger filesToInclude entries routeDefinitions
  end.

Definition build_done (o : Options) (logger : Logger) : M Closure unit :=
  routeDefinitions <- package_functions o logger ;;
  c <- get ;;
  emit (WriteJson (new_URL "./config.json" (outDir (_config c)))
          (JObject [ ("routes",
                      JArray [JObject [("src", JString ".*");
                                       ("dest", JString "/__astro")]]);
                     ("containerized", JBool false) ])) ;;
  emit (RemoveDir (buildTempFolder c)).

End Adapter.

End ServerlessLater.

(* ================================================================== *)
(** * The rest of the static adapter *)
(* ================================================================== *)

Module StaticSetup.
Import Host.

Section Setup.
Context `{Api}.

(** The object handed to [updateConfig] by astro:config:setup. *)
Record ConfigUpdate : Type := {
  up_outDir : URL;
  up_format : string;
  up_redirects : bool;
}.

Definition config_setup (config_root : URL) : ConfigUpdate :=
  {| up_outDir := new_URL "./static/" (getOutput config_root);
     up_format := "directory";
     up_redirects := false |}.

(** A build: astro:build:start, then astro:build:done. *)
Definition build : M Static.Closure unit :=
  Static.build_start ;; Static.build_done.

End Setup.

End StaticSetup.

(* ================================================================== *)
(** * The like action of the actions-blog fixture *)
(* ================================================================== *)

Module Likes.

(** A row of the Likes table, as the action uses it; [likes] is a
    64-bit integer below the last one, so that one more like is still
    an integer of the column. *)
Record LikesRow : Type := {
  postId : string;
  likes : Z;
}.

Definition matches (p : string) (r : LikesRow) : bool :=
  String.eqb (postId r) p.

(** [db.update(Likes).set({ likes: sql`likes + 1` })
       .where(eq(Likes.postId, postId)).returning()]:
    the rows of the post after the update, in the order of the table,
    and the table. *)
Definition bump (r : LikesRow) : LikesRow :=
  {| postId := postId r; likes := (likes r + 1)%Z |}.

Definition update_returning (p : string) (table : list LikesRow)
    : list LikesRow * list LikesRow :=
  let table' := map (fun r => if matches p r then bump r else r) table in
  (filter (matches p) table', table').

(** [Number.MAX_SAFE_INTEGER], 2^53 - 1. *)
Definition MAX_SAFE_INTEGER : Z := 9007199254740991.


(** An integer the database client hands over as a JavaScript number;
    outside this range it throws a RangeError instead. *)
Definition safe (z : Z) : bool :=
  (- MAX_SAFE_INTEGER <=? z)%Z && (z <=? MAX_SAFE_INTEGER)%Z.

(** The [handler] of [server.blog.like], its one-second pause apart:
    the update is stored, the rows returned are read back as JavaScript
    numbers, which throws a RangeError (given here by its name) when a
    count is outside the safe range; [.get()] gives the first row or
    undefined, and reading [likes] off undefined throws. *)
Definition like (p : string) (table : list LikesRow)
    : JS.result string Z * list LikesRow :=
  let (returned, table') := update_returning p table in
  if forallb (fun r => safe (likes r)) returned then
    match returned with
    | r :: _ => (JS.Ok (likes r), table')
    | [] =>
        (JS.Throw "TypeError: Cannot destructure property 'likes' of undefined",
         table')
    end
  else (JS.Throw "RangeError", table').

(** The likes of a post: those of its first row. *)
Definition likes_of (p : string) (table : list LikesRow) : option Z :=
  match find (matches p) table with
  | Some r => Some (likes r)
  | None => None
  end.

End Likes.

Module Comments.

(** What the comment action keeps true of the Comment table: every
    comment belongs to a post of the collection and has a body of ten
    code units or more. *)
Definition well_formed (w : Actions.World) : Prop :=
  Forall (fun row =>
            (exists e, In e (Actions.blog w)
                       /\ Actions.id e = Actions.postId row)
            /\ 10 <= String.length (Actions.body row))
         (Actions.Comment w).

End Comments.

(* ================================================================== *)
(** * The rest of the Vue integration *)
(* ================================================================== *)

Module VueConfig.

(** [transform(code, id)], without the source map: the code it returns,
    or undefined. *)
Definition transform (p : Vue.Plugin) (code id : string) : option string :=
  if negb (JS.truthy (Vue.appEntrypoint p)) then None
  else
    match Vue.appEntrypoint p with
    | Some entry =>
        if JS.endsWith id ".vue" then
          Some ("import " ++ JS.JSON_stringify entry ++ ";" ++ JS.nl ++ code)
        else None
    | None => None
    end.

(** The number of line feeds of a text. *)
Fixpoint line_feeds (s : string) : nat :=
  match s with
  | EmptyString => 0
  | String c r =>
      (if (nat_of_ascii c =? 10)%nat then 1 else 0) + line_feeds r
  end.

Record AstroRenderer : Type := {
  name : string;
  clientEntrypoint : string;
  serverEntrypoint : string;
}.

Definition getRenderer : AstroRenderer :=
  {| name := "@astrojs/vue";
     clientEntrypoint := "@astrojs/vue/client.js";
     serverEntrypoint := "@astrojs/vue/server.js" |}.

Definition getJsxRenderer : AstroRenderer :=
  {| name := "@astrojs/vue (jsx)";
     clientEntrypoint := "@astrojs/vue/client.js";
     serverEntrypoint := "@astrojs/vue/server.js" |}.

Section Configuration.

(** [VueJsxOptions], the options of the devtools plugin and the
    [template] options of the Vue plugin are those packages' own. *)
Variables JsxOptions DevToolsOptions TemplateOptions : Type.

(** A value of type [boolean | T], or undefined. *)
Inductive Flag (T : Type) : Type :=
| Unset
| Bool (b : bool)
| Object (t : T).
Arguments Unset {T}.
Arguments Bool {T} b.
Arguments Object {T} t.

Definition flag_truthy {T} (f : Flag T) : bool :=
  match f with
  | Unset => false
  | Bool b => b
  | Object _ => true
  end.

(** [typeof f === 'object' ? f : undefined]. *)
Definition flag_object {T} (f : Flag T) : option T :=
  match f with
  | Object t => Some t
  | _ => None
  end.

Record Options : Type := {
  appEntrypoint : option string;
  jsx : Flag JsxOptions;
  devtools : Flag DevToolsOptions;
  template : option TemplateOptions;
}.

(** [vueOptions]: the options with [template.transformAssetUrls] set
    to false over whatever [template] held. *)
Record VueOptions : Type := {
  vue_appEntrypoint : option string;
  vue_template : option TemplateOptions;
  vue_transformAssetUrls : bool;
}.

Definition vueOptions (options : option Options) : VueOptions :=
  {| vue_appEntrypoint :=
       match options with Some o => appEntrypoint o | None => None end;
     vue_template :=
       match options with Some o => template o | None => None end;
     vue_transformAssetUrls := false |}.

(** The plugins of the Vite configuration. *)
Inductive PluginCall : Type :=
| vue (o : VueOptions)
| virtualAppEntrypoint (o : VueOptions)
| vueJsx (jsxOptions : option JsxOptions)
| vueDevTools (devToolsOptions : option DevToolsOptions) (appendTo : string).

Record UserConfig : Type := {
  optimizeDeps_include : list string;
  optimizeDeps_exclude : list string;
  plugins : list PluginCall;
  ssr_noExternal : list string;
}.

Definition option_flag {T} (options : option Options)
    (get : Options -> Flag T) : Flag T :=
  match options with
  | Some o => get o
  | None => Unset
  end.

(** [getViteConfiguration(command, options)]; an empty devtools object
    [{}] is [None]. *)
Definition getViteConfiguration (command : string) (options : option Options)
    : UserConfig :=
  let base :=
    [vue (vueOptions options); virtualAppEntrypoint (vueOptions options)] in
  let with_jsx :=
    if flag_truthy (option_flag options jsx) then
      (base ++ [vueJsx (flag_object (option_flag options jsx))])%list
    else base in
  let with_devtools :=
    if String.eqb command "dev" && flag_truthy (option_flag options devtools)
    then
      (with_jsx
         ++ [vueDevTools (flag_object (option_flag options devtools))
               Vue.VIRTUAL_MODULE_ID])%list
    else with_jsx in
  {| optimizeDeps_include := ["@astrojs/vue/client.js"; "vue"];
     optimizeDeps_exclude := ["@astrojs/vue/server.js"; Vue.VIRTUAL_MODULE_ID];
     plugins := with_devtools;
     ssr_noExternal := ["vuetify"; "vueperslides"; "primevue"] |}.

(** astro:config:setup of the integration: the renderers it adds, in
    order, and the Vite configuration it passes to [updateConfig]. *)
Definition config_setup (command : string) (options : option Options)
    : list AstroRenderer * UserConfig :=
  ((if flag_truthy (option_flag options jsx)
    then [getRenderer; getJsxRenderer]
    else [getRenderer]),
   getViteConfiguration command options).

Definition is_vueJsx (c : PluginCall) : bool :=
  match c with vueJsx _ => true | _ => false end.

Definition is_vueDevTools (c : PluginCall) : bool :=
  match c with vueDevTools _ _ => true | _ => false end.

End Configuration.

Arguments Unset {T}.
Arguments Bool {T} b.
Arguments Object {T} t.
Arguments appEntrypoint {JsxOptions DevToolsOptions TemplateOptions} o.
Arguments jsx {JsxOptions DevToolsOptions TemplateOptions} o.
Arguments devtools {JsxOptions DevToolsOptions TemplateOptions} o.
Arguments template {JsxOptions DevToolsOptions TemplateOptions} o.
Arguments vue_transformAssetUrls {TemplateOptions} v.
Arguments vueOptions {JsxOptions DevToolsOptions TemplateOptions} options.
Arguments vue {JsxOptions DevToolsOptions TemplateOptions} o.
Arguments virtualAppEntrypoint {JsxOptions DevToolsOptions TemplateOptions} o.
Arguments vueJsx {JsxOptions DevToolsOptions TemplateOptions} jsxOptions.
Arguments vueDevTools {JsxOptions DevToolsOptions TemplateOptions}
  devToolsOptions appendTo.
Arguments plugins {JsxOptions DevToolsOptions TemplateOptions} u.
Arguments option_flag {JsxOptions DevToolsOptions TemplateOptions T}
  options get.
Arguments getViteConfiguration {JsxOptions DevToolsOptions TemplateOptions}
  command options.
Arguments config_setup {JsxOptions DevToolsOptions TemplateOptions}
  command options.
Arguments is_vueJsx {JsxOptions DevToolsOptions TemplateOptions} c.
Arguments is_vueDevTools {JsxOptions DevToolsOptions TemplateOptions} c.

End VueConfig.

(** More sample data. *)

Module Sample2.

Definition likes_table : list Likes.LikesRow :=
  [ {| Likes.postId := "first-post"; Likes.likes := 10 |};
    {| Likes.postId := "second-post"; Likes.likes := 3 |} ].



Definition plugin : Vue.Plugin :=
  Vue.configResolved Sample.path_resolve Sample.vue_options "/root"
    (Vue.config "dev" Vue.fresh).

Definition vue_full_options : option (VueConfig.Options unit unit unit) :=
  Some {| VueConfig.appEntrypoint := Some "./src/app";
          VueConfig.jsx := VueConfig.Bool true;
          VueConfig.devtools := VueConfig.Object tt;
          VueConfig.template := None |}.

(** A runtime whose calls all succeed and whose request carries the
    locals header. *)
#[local] Instance serving : Entrypoint.Runtime := {|
  Entrypoint.Request := string;
  Entrypoint.RouteData := string;
  Entrypoint.Locals := string;
  Entrypoint.Response := string;
  Entrypoint.getRequest := fun base _ => JS.Ok base;
  Entrypoint.app_match := fun _ => JS.Ok (Some "/blog");
  Entrypoint.headers_get := fun _ name =>
    if String.eqb name "x-astro-locals" then Some "{user:1}" else None;
  Entrypoint.JSON_parse := fun s => JS.Ok s;
  Entrypoint.no_locals := "{}";
  Entrypoint.app_render := fun _ _ locals => JS.Ok ("page for " ++ locals);
  Entrypoint.setResponse := fun r res =>
    (JS.Ok tt,
     {| Entrypoint.statusCode := 200; Entrypoint.ended := Some r |});
|}.

(** A runtime whose [getRequest] throws an error with a status and a
    reason. *)
#[local] Instance too_large : Entrypoint.Runtime := {|
  Entrypoint.Request := string;
  Entrypoint.RouteData := string;
  Entrypoint.Locals := string;
  Entrypoint.Response := string;
  Entrypoint.getRequest := fun _ _ =>
    JS.Throw (Entrypoint.Exception "Error" (Some 413%Z)
                (Some "Exceeded Content-Length limit"));
  Entrypoint.app_match := fun _ => JS.Ok None;
  Entrypoint.headers_get := fun _ _ => None;
  Entrypoint.JSON_parse := fun s => JS.Ok s;
  Entrypoint.no_locals := "{}";
  Entrypoint.app_render := fun _ _ _ => JS.Ok "page";
  Entrypoint.setResponse := fun r res =>
    (JS.Ok tt,
     {| Entrypoint.statusCode := 200; Entrypoint.ended := Some r |});
|}.

(** The static adapter's configuration and closure. *)
Definition static_config : @Static.AstroConfig Sample.api :=
  @Static.Build_AstroConfig Sample.api "file:///app/" "static".

Definition static_closure : @Static.Closure Sample.api :=
  @Static.Build_Closure Sample.api static_config.

(** An entry file whose base name holds entry. past its start, for a
    route outside src/pages/. *)
Definition odd_entry : string := "file:///app/dist/pages/reentry.page.mjs".

Definition odd_entryPoints : list (Serverless.RouteData * string) :=
  [ (Sample.injected_route, odd_entry) ].

Definition odd_built : @Serverless.Closure Sample.api :=
  @Serverless.set_entryPoints Sample.api odd_entryPoints Sample.closure.

(** A glob value with nested arrays and a value that is no string. *)
Definition globs : Serverless.GlobPattern :=
  Serverless.GlobArray
    [ Serverless.GlobString "**/*.txt";
      Serverless.GlobArray [Serverless.GlobOther;
                            Serverless.GlobString "data/*.json"] ].

End Sample2.


(* ================================================================== *)
(** * Properties of the string builtins *)
(* ================================================================== *)

Section StringFacts.

Lemma prefix_append (p s : string) : String.prefix p (p ++ s) = true.
Proof.
  induction p as [|c p IH]; simpl.
  - now destruct s.
  - destruct (ascii_dec c c) as [_|ne]; [exact IH | now elim ne].
Qed.

Lemma slice_from_append (p s : string) :
  JS.slice_from (String.length p) (p ++ s) = s.
Proof. induction p as [|c p IH]; simpl; auto. Qed.

Lemma replace_unfold (pat rep s : string) :
  JS.replace pat rep s
  = if String.prefix pat s then rep ++ JS.slice_from (String.length pat) s
    else match s with
         | EmptyString => EmptyString
         | String c r => String c (JS.replace pat rep r)
         end.
Proof. destruct s; reflexivity. Qed.

(** When the pattern is a prefix, [replace] rewrites that prefix. *)
Lemma replace_prefix (pat rep rest : string) :
  JS.replace pat rep (pat ++ rest) = rep ++ rest.
Proof.
  rewrite replace_unfold, prefix_append. now rewrite slice_from_append.
Qed.

Lemma includes_unfold (s sub : string) :
  JS.includes s sub
  = if String.prefix sub s then true
    else match s with
         | EmptyString => false
         | String _ r => JS.includes r sub
         end.
Proof. destruct s; reflexivity. Qed.

(** Without an occurrence nothing changes. *)
Lemma replace_absent (pat rep s : string) :
  JS.includes s pat = false -> JS.replace pat rep s = s.
Proof.
  induction s as [|c s IH]; rewrite includes_unfold, replace_unfold.
  - destruct (String.prefix pat EmptyString); intros Hs;
      [discriminate | reflexivity].
  - destruct (String.prefix pat (String c s)); intros Hs; [discriminate|].
    now rewrite IH.
Qed.

Lemma includes_append_r (a b sub : string) :
  JS.includes b sub = true -> JS.includes (a ++ b) sub = true.
Proof.
  intros Hb. induction a as [|c a IH]; [exact Hb|].
  simpl append. rewrite includes_unfold.
  now destruct (String.prefix sub (String c (a ++ b))).
Qed.

Lemma includes_prefix (s sub : string) :
  String.prefix sub s = true -> JS.includes s sub = true.
Proof. intros Hp. rewrite includes_unfold. now rewrite Hp. Qed.

Lemma length_append (a b : string) :
  String.length (a ++ b) = String.length a + String.length b.
Proof. induction a as [|c a IH]; simpl; auto. Qed.

Lemma slice_to_append (a b : string) :
  JS.slice_to (String.length a) (a ++ b) = a.
Proof. induction a as [|c a IH]; simpl; [now destruct b | now rewrite IH]. Qed.

(** The anchored pattern removes a final [.mjs]. *)
Lemma replace_mjs_end_suffix (stem : string) :
  JS.replace_mjs_end (stem ++ ".mjs") = stem.
Proof.
  unfold JS.replace_mjs_end, JS.endsWith.
  rewrite length_append. simpl String.length.
  replace (String.length stem + 4 - 4) with (String.length stem) by lia.
  rewrite slice_from_append, slice_to_append.
  replace (4 <=? String.length stem + 4)%nat with true
    by (symmetry; apply Nat.leb_le; lia).
  reflexivity.
Qed.

(** [replace] with a string pattern removes a prefix exactly when the
    first occurrence of the pattern is at the start. *)
Lemma replace_is_without_prefix (pat s : string) :
  String.prefix pat s = true \/ JS.includes s pat = false ->
  JS.replace pat EmptyString s = JS.without_prefix pat s.
Proof.
  intros [Hp|Hn].
  - unfold JS.without_prefix. rewrite replace_unfold, Hp. reflexivity.
  - rewrite (replace_absent _ _ _ Hn). unfold JS.without_prefix.
    destruct (String.prefix pat s) eqn:Hp; [|reflexivity].
    apply includes_prefix in Hp. congruence.
Qed.

Example basename_of_entry_url :
  JS.basename "file:///app/dist/pages/entry.feed.astro.mjs"
  = "entry.feed.astro.mjs".
Proof. reflexivity. Qed.

Example basename_ignores_trailing_slashes :
  JS.basename "/app/dist//" = "dist".
Proof. reflexivity. Qed.

Example replace_first_occurrence_only :
  JS.replace "entry." EmptyString "entry.entry.x" = "entry.x".
Proof. reflexivity. Qed.

(** An occurrence that is not at the start is removed as well. *)
Example replace_inner_occurrence :
  JS.replace_mjs_end (JS.replace "entry." EmptyString "reentry.page.mjs")
  = "repage".
Proof. reflexivity. Qed.

Example mjs_only_at_the_end :
  JS.replace_mjs_end "a.mjs.map" = "a.mjs.map".
Proof. reflexivity. Qed.

Example stringify_escapes :
  JS.JSON_stringify ("a" ++ JS.dq ++ JS.nl ++ JS.backslash)
  = JS.dq ++ "a" ++ JS.backslash ++ JS.dq ++ JS.backslash ++ "n"
      ++ JS.backslash ++ JS.backslash ++ JS.dq.
Proof. reflexivity. Qed.

End StringFacts.


(* ================================================================== *)
(** * The Vue virtual module *)
(* ================================================================== *)

Section VueFacts.

Variable path_resolve : string -> string -> string.
Variable options : option Vue.Options.

(** No hook assigns [appEntrypoint] unless the option is truthy. *)
Lemma unconfigured_stays_undefined (p : Vue.Plugin) :
  Vue.reachable path_resolve options p ->
  JS.truthy (Vue.configured options) = false ->
  Vue.appEntrypoint p = None.
Proof.
  intros Hr Hf. induction Hr as [|command p _ IH|config_root p _ IH]; simpl.
  - reflexivity.
  - exact IH.
  - now rewrite Hf.
Qed.

Lemma load_exports_setup (p : Vue.Plugin) :
  exists code,
    Vue.load p Vue.RESOLVED_VIRTUAL_MODULE_ID = Some code
    /\ JS.includes code "export const setup = " = true.
Proof.
  unfold Vue.load. rewrite String.eqb_refl.
  destruct (Vue.appEntrypoint p) as [[|c entry]|]; simpl JS.truthy; cbv iota;
    try (eexists; split; [reflexivity | reflexivity]).
  eexists; split; [reflexivity|].
  do 5 apply includes_append_r.
  apply includes_prefix. reflexivity.
Qed.

(** C10: [resolveId] maps the id virtual:@astrojs/vue/app, and no other,
    to its resolved form; loading the resolved id always gives a module
    that exports [setup]; without a configured appEntrypoint the module
    is the no-op [export const setup = () => {};]; with one, after
    [configResolved], the module imports the (resolved) entry point and
    its [setup] awaits [mod.default(app)] under the test
    ['default' in mod], the [else] branch holding only a warning, which
    is empty in a build. *)
Theorem virtualAppEntrypoint_resolves_and_loads :
  (forall id,
      Vue.resolveId id = Some Vue.RESOLVED_VIRTUAL_MODULE_ID
      <-> id = Vue.VIRTUAL_MODULE_ID)
  /\ (forall id, id <> Vue.VIRTUAL_MODULE_ID -> Vue.resolveId id = None)
  /\ (forall p, exists code,
         Vue.load p Vue.RESOLVED_VIRTUAL_MODULE_ID = Some code
         /\ JS.includes code "export const setup = " = true)
  /\ (forall p,
         Vue.reachable path_resolve options p ->
         JS.truthy (Vue.configured options) = false ->
         Vue.load p Vue.RESOLVED_VIRTUAL_MODULE_ID
         = Some "export const setup = () => {};")
  /\ (forall p0 config_root entry,
         Vue.configured options = Some entry ->
         let resolved :=
           if JS.startsWith entry "." then path_resolve config_root entry
           else entry in
         JS.truthy (Some entry) = true ->
         JS.truthy (Some resolved) = true ->
         let p := Vue.configResolved path_resolve options config_root p0 in
         exists warning,
           Vue.load p Vue.RESOLVED_VIRTUAL_MODULE_ID
           = Some ("import * as mod from " ++ JS.JSON_stringify resolved ++ ";"
                   ++ JS.nl ++ JS.nl
                   ++ "export const setup = async (app) => {" ++ JS.nl
                   ++ JS.tab ++ "if ('default' in mod) {" ++ JS.nl
                   ++ JS.tab ++ JS.tab ++ "await mod.default(app);" ++ JS.nl
                   ++ JS.tab ++ "} else {" ++ JS.nl
                   ++ JS.tab ++ JS.tab ++ warning ++ JS.nl
                   ++ JS.tab ++ "}" ++ JS.nl
                   ++ "}")
           /\ (Vue.isBuild p0 = Some true -> warning = EmptyString)).
Proof.
  repeat split.
  - unfold Vue.resolveId. destruct (String.eqb_spec id Vue.VIRTUAL_MODULE_ID);
      [trivial | discriminate].
  - intros ->. reflexivity.
  - intros id Hid. unfold Vue.resolveId.
    destruct (String.eqb_spec id Vue.VIRTUAL_MODULE_ID); [contradiction | reflexivity].
  - apply load_exports_setup.
  - intros p Hr Hf. unfold Vue.load. rewrite String.eqb_refl.
    now rewrite (unconfigured_stays_undefined p Hr Hf).
  - intros p0 config_root entry He resolved Ht Hres p.
    exists (Vue.warning p resolved).
    assert (Ha : Vue.appEntrypoint p = Some resolved).
    { subst p. unfold Vue.configResolved; simpl. rewrite He, Ht. reflexivity. }
    split.
    + unfold Vue.load. rewrite String.eqb_refl, Ha, Hres. reflexivity.
    + intros Hb. unfold Vue.warning, Vue.not_build. subst p; simpl.
      now rewrite Hb.
Qed.

End VueFacts.


(* ================================================================== *)
(** * The serverless adapter *)
(* ================================================================== *)

Section ServerlessFacts.

Import Host Serverless.
Context `{Api}.

(** ** validateRuntime *)

(** A major version that is neither a key of the table nor a member of
    [Object.prototype] looks up to undefined. *)
Lemma lookup_unknown_major (major : string) :
  major <> "16" -> major <> "18" -> major <> "20" ->
  ~ In major Object_prototype_keys ->
  SUPPORTED_NODE_VERSIONS major = Undefined.
Proof.
  intros H16 H18 H20 Hproto. unfold SUPPORTED_NODE_VERSIONS.
  destruct (String.eqb_spec major "16"); [contradiction|].
  destruct (String.eqb_spec major "18"); [contradiction|].
  destruct (String.eqb_spec major "20"); [contradiction|].
  destruct (existsb (String.eqb major) Object_prototype_keys) eqn:He;
    [|reflexivity].
  apply existsb_exists in He. destruct He as [k [Hin Hk]].
  apply String.eqb_eq in Hk. subst k. contradiction.
Qed.

(** On such a version the read of [support.status] throws before any
    warning is written: the branch for unsupported versions is never
    taken. *)
Lemma validateRuntime_undefined {S : Type} (v : string) (s : S)
    (log : list Event) :
  SUPPORTED_NODE_VERSIONS (node_major v) = Undefined ->
  validateRuntime v s log
  = (JS.Throw (TypeError "Cannot read properties of undefined (reading 'status')"),
     s, log).
Proof.
  intros Hu. unfold validateRuntime. fold (node_major v). rewrite Hu.
  reflexivity.
Qed.

(** On every other version it returns, having written warnings only. *)
Lemma validateRuntime_defined (v : string) :
  SUPPORTED_NODE_VERSIONS (node_major v) <> Undefined ->
  exists warnings,
    Forall is_warning warnings
    /\ forall (S : Type) (s : S) (log : list Event),
         validateRuntime v s log = (JS.Ok tt, s, (log ++ warnings)%list).
Proof.
  intros Hd. unfold validateRuntime. fold (node_major v).
  destruct (SUPPORTED_NODE_VERSIONS (node_major v)) as [status removal| |];
    [| |contradiction].
  - destruct (String.eqb status "beta") eqn:Hb.
    + eexists. split; [|intros S s log; unfold bindM, status_of, ret, warn, emit;
                         simpl; rewrite Hb; rewrite <- app_assoc; reflexivity].
      repeat constructor.
    + destruct (String.eqb status "deprecated") eqn:Hdep.
      * eexists. split; [|intros S s log; unfold bindM, status_of, ret, warn, emit;
                           simpl; rewrite Hb, Hdep; rewrite <- !app_assoc;
                           reflexivity].
        repeat constructor.
      * exists []. split; [constructor|].
        intros S s log. unfold bindM, status_of, ret; simpl.
        rewrite Hb, Hdep, app_nil_r. reflexivity.
  - exists []. split; [constructor|].
    intros S s log. rewrite app_nil_r. reflexivity.
Qed.

(** No run writes the warnings of the branch for unsupported versions:
    its second message is in the log afterwards only if it was there
    before. *)
Lemma unsupported_branch_unreachable {S : Type} (v : string) (s : S)
    (log : list Event) :
  let unsupported :=
    ConsoleWarn ("[" ++ PACKAGE_NAME ++ "] "
                 ++ "Your project will use Node.js 18 as the runtime instead.")
  in
  In unsupported (snd (validateRuntime v s log)) -> In unsupported log.
Proof.
  intros unsupported. unfold validateRuntime. fold (node_major v).
  destruct (SUPPORTED_NODE_VERSIONS (node_major v)) as [status removal| |];
    unfold bindM, status_of, ret, throw, warn, emit; simpl;
    try (intros Hin; exact Hin).
  destruct (String.eqb status "beta"); simpl.
  - intros Hin. rewrite <- app_assoc in Hin. apply in_app_or in Hin.
    destruct Hin as [Hin|Hin]; [exact Hin|].
    simpl in Hin. destruct Hin as [E|[E|[]]]; discriminate E.
  - destruct (String.eqb status "deprecated"); simpl;
      [|intros Hin; exact Hin].
    intros Hin. rewrite <- !app_assoc in Hin. apply in_app_or in Hin.
    destruct Hin as [Hin|Hin]; [exact Hin|].
    simpl in Hin. destruct Hin as [E|[E|[E|[]]]]; discriminate E.
Qed.

(** C4: on Node.js v22.1.0, a version whose major is not a key of
    SUPPORTED_NODE_VERSIONS, [validateRuntime] throws a TypeError on the
    read of [support.status] and writes no warning, although its second
    branch is written to warn that the version is not supported. *)
Theorem validateRuntime_node22_throws {S : Type} (s : S) (log : list Event) :
  SUPPORTED_NODE_VERSIONS (node_major "v22.1.0") = Undefined
  /\ validateRuntime "v22.1.0" s log
     = (JS.Throw (TypeError "Cannot read properties of undefined (reading 'status')"),
        s, log).
Proof.
  split; [reflexivity|]. now apply validateRuntime_undefined.
Qed.

(** ** createFunctionFolder *)

(** C6: for every function name, [createFunctionFolder] asks the
    dependency tracer to copy the entry file's dependencies into
    functions/<name>.func/ under the output directory, then writes
    package.json with the content {type: module} into that same folder;
    it does nothing else and returns. *)
Theorem createFunctionFolder_fills_one_folder {S : Type}
    (a : CreateFunctionFolderArgs) (s : S) (log : list Event) :
  exists folder events,
    folder = new_URL ("./functions/" ++ functionName a ++ ".func/")
                     (outDir (config a))
    /\ createFunctionFolder a s log = (JS.Ok tt, s, (log ++ events)%list)
    /\ events
       = [ CopyDependenciesToFunction (entry a) folder (arg_includeFiles a)
             (map_or_empty (arg_excludeFiles a) (root (config a)))
             (arg_logger a) (arg_NTF_CACHE a);
           WriteJson (new_URL "./package.json" folder)
             (JObject [("type", JString "module")]) ]
    /\ function_folders events = [folder].
Proof.
  eexists; eexists. split; [reflexivity|]. split; [|split; reflexivity].
  unfold createFunctionFolder, bindM, emit. simpl.
  now rewrite <- app_assoc.
Qed.

(** C8: two calls of [createFunctionFolder] whose arguments differ only
    in [maxDuration] make the same helper calls with the same arguments
    and so leave the same log: [maxDuration] is never read. *)
Theorem createFunctionFolder_ignores_maxDuration {S : Type}
    (a b : CreateFunctionFolderArgs) (s : S) (log : list Event) :
  same_but_maxDuration a b ->
  createFunctionFolder a s log = createFunctionFolder b s log.
Proof.
  intros (Hn & He & Hc & Hl & Hk & Hi & Hx).
  unfold createFunctionFolder. now rewrite Hn, He, Hc, Hl, Hk, Hi, Hx.
Qed.

(** ** astro:build:ssr *)

Lemma append_one_differs {A : Type} (l : list A) (x : A) :
  (l ++ [x])%list <> l.
Proof.
  intros E. apply (f_equal (@List.length A)) in E.
  rewrite length_app in E. simpl in E. lia.
Qed.

(** C7: astro:build:ssr records the entry points; it calls
    [generateEdgeMiddleware] and appends the bundled file to
    [extraFilesToInclude] exactly when a middleware entry point is
    given, and otherwise leaves the list and the log as they were. *)
Theorem build_ssr_bundles_iff_middleware
    (entryPoints : list (RouteData * URL)) (middlewareEntryPoint : option URL)
    (c : Closure) (log : list Event) :
  exists c' log',
    build_ssr entryPoints middlewareEntryPoint c log = (JS.Ok tt, c', log')
    /\ _entryPoints c' = Some entryPoints
    /\ match middlewareEntryPoint with
       | Some m =>
           let outPath := fileURLToPath (buildTempFolder c) in
           let handlerPath :=
             new_URL VERCEL_EDGE_MIDDLEWARE_FILE (srcDir (_config c)) in
           log' = (log ++ [GenerateEdgeMiddleware m outPath handlerPath])%list
           /\ extraFilesToInclude c'
              = (extraFilesToInclude c
                   ++ [bundledMiddleware m outPath handlerPath])%list
       | None => log' = log /\ extraFilesToInclude c' = extraFilesToInclude c
       end
    /\ (middlewareEntryPoint <> None <-> log' <> log)
    /\ (middlewareEntryPoint <> None
        <-> extraFilesToInclude c' <> extraFilesToInclude c).
Proof.
  destruct middlewareEntryPoint as [m|]; eexists; eexists;
    (split; [cbv [build_ssr bindM get put emit ret]; reflexivity|]);
    simpl; (split; [reflexivity|]).
  - split; [split; reflexivity|].
    split; (split; [intros _; apply append_one_differs | discriminate]).
  - split; [split; reflexivity|].
    split; (split; [intros E; now elim E | intros E; now elim E]).
Qed.

(** ** astro:build:done *)

Lemma each_entry_run (o : Options) (logger : Logger) (files : list URL)
    (entries : list (RouteData * URL)) :
  forall (defs : list RouteDefinition) (c : Closure) (log : list Event),
    each_entry o logger files entries defs c log
    = (JS.Ok (defs ++ map (fun e => {| src := pattern_source (fst e);
                                       dest := func (fst e) (snd e) |})
                          entries)%list,
       c,
       (log ++ flat_map (entry_events o logger c files) entries)%list).
Proof.
  induction entries as [|[route entryFile] rest IH]; intros defs c log.
  - simpl. now rewrite !app_nil_r.
  - simpl each_entry. unfold bindM at 1. unfold get at 1.
    unfold bindM at 1.
    unfold createFunctionFolder, bindM at 1, emit. simpl fst. simpl snd.
    rewrite IH. simpl. rewrite <- !app_assoc. reflexivity.
Qed.

Lemma function_folders_entries (o : Options) (logger : Logger) (c : Closure)
    (files : list URL) (entries : list (RouteData * URL)) :
  function_folders (flat_map (entry_events o logger c files) entries)
  = map (fun e => folder_of (_config c) (func (fst e) (snd e))) entries.
Proof.
  induction entries as [|e rest IH]; simpl; [reflexivity|].
  now rewrite <- IH.
Qed.

Lemma merged_config (c : Closure) : _config (merged c) = _config c.
Proof.
  unfold merged. destruct (assets_truthy _); [|reflexivity].
  now destruct (vite_assetsInclude _).
Qed.

Lemma merged_entryPoints (c : Closure) :
  _entryPoints (merged c) = _entryPoints c.
Proof.
  unfold merged. destruct (assets_truthy _); [|reflexivity].
  now destruct (vite_assetsInclude _).
Qed.

Lemma merged_buildTempFolder (c : Closure) :
  buildTempFolder (merged c) = buildTempFolder c.
Proof.
  unfold merged. destruct (assets_truthy _); [|reflexivity].
  now destruct (vite_assetsInclude _).
Qed.

(** The run of the hook up to the complete [routeDefinitions], on a
    Node.js version [validateRuntime] accepts. *)
Lemma package_functions_run (o : Options) (v : string)
    (logger : Logger) (c : Closure) (log : list Event)
    (entries : list (RouteData * URL)) :
  SUPPORTED_NODE_VERSIONS (node_major v) <> Undefined ->
  _entryPoints c = Some entries ->
  exists warnings events,
    Forall is_warning warnings
    /\ package_functions o v logger c log
       = (JS.Ok (match entries with
                 | [] => [{| src := "/.*"; dest := "__astro" |}]
                 | _ => map (fun e => {| src := pattern_source (fst e);
                                         dest := func (fst e) (snd e) |})
                            entries
                 end),
          merged c, (log ++ warnings ++ events)%list)
    /\ function_folders events
       = match entries with
         | [] => [folder_of (_config c) "__astro"]
         | _ => map (fun e => folder_of (_config c) (func (fst e) (snd e)))
                    entries
         end.
Proof.
  intros Hv He.
  destruct (validateRuntime_defined v Hv) as (ws & Hws & Hrun).
  exists ws.
  assert (Hm : forall l,
             (c0 <- get ;;
              (if assets_truthy (vite_assetsInclude (_config c0)) then
                 match vite_assetsInclude (_config c0) with
                 | Some g => put (push_extraFiles (mergeGlobbedIncludes g) c0)
                 | None => ret tt
                 end
               else ret tt)) c l
             = (JS.Ok tt, merged c, l)).
  { intros l. unfold bindM, get, merged.
    destruct (assets_truthy _); [|reflexivity].
    now destruct (vite_assetsInclude _). }
  unfold package_functions.
  unfold bindM at 1. unfold get at 1. unfold bindM at 1.
  unfold bindM, get in Hm. rewrite Hm.
  unfold bindM at 1. unfold get at 1. unfold bindM at 1.
  rewrite Hrun, merged_entryPoints, He.
  destruct entries as [|e rest].
  - eexists. split; [exact Hws|]. split.
    + unfold createFunctionFolder, bindM, emit, ret. simpl.
      rewrite <- !app_assoc. reflexivity.
    + simpl. now rewrite merged_config.
  - exists (flat_map (entry_events o logger (merged c)
                        (map_or_empty (includeFiles o) (root (_config (merged c)))
                           ++ extraFilesToInclude (merged c))%list)
                     (e :: rest)).
    split; [exact Hws|]. split.
    + rewrite each_entry_run. rewrite <- app_assoc. reflexivity.
    + rewrite function_folders_entries, merged_config. reflexivity.
Qed.

(** The function name of a page route is its component path without
    the leading src/pages/. *)
Lemma func_of_page (route : RouteData) (entryFile : URL) (rest : string) :
  component route = "src/pages/" ++ rest -> func route entryFile = rest.
Proof.
  intros Hc. unfold func, getRouteFuncName, JS.startsWith. rewrite Hc.
  rewrite prefix_append. now rewrite replace_prefix.
Qed.

(** The function name of any other route is the base name of its entry
    file without the leading entry. and the final .mjs. *)
Lemma func_of_entry_file (route : RouteData) (entryFile : URL) (name : string) :
  JS.startsWith (component route) "src/pages/" = false ->
  JS.basename (URL_toString entryFile) = "entry." ++ name ++ ".mjs" ->
  func route entryFile = name.
Proof.
  intros Hc Hb. unfold func, getFallbackFuncName. rewrite Hc, Hb.
  rewrite replace_prefix. apply replace_mjs_end_suffix.
Qed.

(** C2, as the code has it: on a Node.js version [validateRuntime]
    accepts and after astro:build:ssr has stored the entry points,
    astro:build:done runs to its end and makes one
    [createFunctionFolder] call per entry of a non-empty [_entryPoints],
    in order, pairing each route pattern with the name it chose; for an
    empty [_entryPoints] it makes the single function __astro and
    registers it for the pattern /.* .  The name is the component path
    without its src/pages/ prefix for a page, otherwise the base name
    of the entry file with the first occurrence of entry. removed,
    wherever it stands, and then a final .mjs removed.  It is the name
    the specification words whenever the route is a page or the base
    name starts with entry. or holds no entry. at all. *)
Theorem build_done_names_one_function_per_entry
    (o : Options) (v : string) (logger : Logger) (c : Closure)
    (log : list Event) (entries : list (RouteData * URL)) :
  SUPPORTED_NODE_VERSIONS (node_major v) <> Undefined ->
  _entryPoints c = Some entries ->
  exists c' warnings events,
    Forall is_warning warnings
    /\ build_done o v logger c log
       = (JS.Ok tt, c',
          (log ++ warnings ++ events
             ++ [ WriteJson (new_URL "./config.json" (outDir (_config c)))
                    manifest;
                  RemoveDir (buildTempFolder c) ])%list)
    /\ package_functions o v logger c log
       = (JS.Ok (match entries with
                 | [] => [{| src := "/.*"; dest := "__astro" |}]
                 | _ => map (fun e => {| src := pattern_source (fst e);
                                         dest := func (fst e) (snd e) |})
                            entries
                 end),
          c', (log ++ warnings ++ events)%list)
    /\ function_folders events
       = match entries with
         | [] => [folder_of (_config c) "__astro"]
         | _ => map (fun e => folder_of (_config c) (func (fst e) (snd e)))
                    entries
         end
    /\ (forall route entryFile,
           func route entryFile
           = if JS.startsWith (component route) "src/pages/"
             then JS.without_prefix "src/pages/" (component route)
             else JS.without_suffix ".mjs"
                    (JS.replace "entry." EmptyString
                       (JS.basename (URL_toString entryFile))))
    /\ (forall route entryFile rest,
           component route = "src/pages/" ++ rest ->
           func route entryFile = rest)
    /\ (forall route entryFile name,
           JS.startsWith (component route) "src/pages/" = false ->
           JS.basename (URL_toString entryFile) = "entry." ++ name ++ ".mjs" ->
           func route entryFile = name)
    /\ (forall route entryFile,
           let base := JS.basename (URL_toString entryFile) in
           JS.startsWith (component route) "src/pages/" = true
           \/ JS.startsWith base "entry." = true
           \/ JS.includes base "entry." = false ->
           func route entryFile = func_as_specified route entryFile).
Proof.
  intros Hv He.
  destruct (package_functions_run o v logger c log entries Hv He)
    as (ws & evs & Hws & Hrun & Hfolders).
  exists (merged c), ws, evs.
  split; [exact Hws|]. split.
  { unfold build_done. unfold bindM at 1. rewrite Hrun.
    unfold bindM, get, emit. simpl.
    rewrite merged_config, merged_buildTempFolder.
    rewrite <- !app_assoc. reflexivity. }
  split; [exact Hrun|]. split; [exact Hfolders|].
  assert (Hfunc : forall route entryFile,
             func route entryFile
             = if JS.startsWith (component route) "src/pages/"
               then JS.without_prefix "src/pages/" (component route)
               else JS.without_suffix ".mjs"
                      (JS.replace "entry." EmptyString
                         (JS.basename (URL_toString entryFile)))).
  { intros route entryFile. unfold func, getRouteFuncName, getFallbackFuncName.
    destruct (JS.startsWith (component route) "src/pages/") eqn:Hc.
    - apply replace_is_without_prefix. now left.
    - reflexivity. }
  split; [exact Hfunc|]. split; [apply func_of_page|].
  split; [apply func_of_entry_file|].
  intros route entryFile base Hb. rewrite Hfunc. unfold func_as_specified.
  fold base.
  destruct (JS.startsWith (component route) "src/pages/") eqn:Hc;
    [reflexivity|].
  destruct Hb as [Hb|Hb]; [discriminate Hb|].
  now rewrite replace_is_without_prefix.
Qed.

(** C1, as the code has it: on a Node.js version [validateRuntime]
    accepts, astro:build:done ends by writing config.json in the output
    directory and removing the temporary folder; the value written is
    the same for every build, one route sending .* to /__astro and
    containerized false; the pairs of route pattern and function name,
    one per route processed, are collected in [routeDefinitions] and
    are not part of what is written. *)
Theorem build_done_writes_fixed_manifest
    (o : Options) (v : string) (logger : Logger) (c : Closure)
    (log : list Event) (entries : list (RouteData * URL)) :
  SUPPORTED_NODE_VERSIONS (node_major v) <> Undefined ->
  _entryPoints c = Some entries ->
  exists c' events routeDefinitions,
    package_functions o v logger c log
    = (JS.Ok routeDefinitions, c', (log ++ events)%list)
    /\ (entries <> [] ->
        routeDefinitions
        = map (fun e => {| src := pattern_source (fst e);
                           dest := func (fst e) (snd e) |}) entries)
    /\ build_done o v logger c log
       = (JS.Ok tt, c',
          (log ++ events
             ++ [ WriteJson (new_URL "./config.json" (outDir (_config c)))
                    (JObject
                       [ ("routes",
                          JArray [JObject [("src", JString ".*");
                                           ("dest", JString "/__astro")]]);
                         ("containerized", JBool false) ]);
                  RemoveDir (buildTempFolder c) ])%list)
    /\ (forall s d,
           has_route manifest s d = true <-> s = ".*" /\ d = "/__astro").
Proof.
  intros Hv He.
  destruct (package_functions_run o v logger c log entries Hv He)
    as (ws & evs & Hws & Hrun & _).
  eexists (merged c), (ws ++ evs)%list, _.
  split; [exact Hrun|]. split; [|split].
  - intros Hne. destruct entries; [now elim Hne | reflexivity].
  - unfold build_done. unfold bindM at 1. rewrite Hrun.
    unfold bindM, get, emit. simpl.
    rewrite merged_config, merged_buildTempFolder.
    rewrite <- !app_assoc. reflexivity.
  - intros s d.
    change (has_route manifest s d)
      with ((String.eqb ".*" s && String.eqb "/__astro" d) || false).
    rewrite orb_false_r, andb_true_iff, !String.eqb_eq.
    split; intros [Hs Hd]; now subst.
Qed.

End ServerlessFacts.

(* ================================================================== *)
(** * The static adapter *)
(* ================================================================== *)

Section StaticFacts.

Import Host.
Context `{Api}.

(** C9: astro:build:start empties the directory [getOutput(root)], and
    astro:build:done writes config.json in that directory; the value
    written has the single route sending .* to /__astro and
    containerized false, and nothing else. *)
Theorem static_adapter_empties_then_writes_config
    (c : Static.Closure) (log : list Event) :
  let out := getOutput (Static.root (Static._config c)) in
  exists value,
    Static.build_start c log = (JS.Ok tt, c, (log ++ [EmptyDir out])%list)
    /\ Static.build_done c log
       = (JS.Ok tt, c,
          (log ++ [WriteJson (new_URL "./config.json" out) value])%list)
    /\ value
       = JObject [ ("routes",
                    JArray [JObject [("src", JString ".*");
                                     ("dest", JString "/__astro")]]);
                   ("containerized", JBool false) ]
    /\ (forall s d, has_route value s d = true <-> s = ".*" /\ d = "/__astro")
    /\ field "containerized" match value with
                             | JObject fields => fields
                             | _ => []
                             end = Some (JBool false).
Proof.
  intros out. eexists. split; [reflexivity|]. split; [reflexivity|].
  split; [reflexivity|]. split; [|reflexivity].
  intros s d.
  match goal with
  | |- has_route ?m s d = true <-> _ =>
      change (has_route m s d)
        with ((String.eqb ".*" s && String.eqb "/__astro" d) || false)
  end.
  rewrite orb_false_r, andb_true_iff, !String.eqb_eq.
  split; intros [Hs Hd]; now subst.
Qed.

End StaticFacts.

(* ================================================================== *)
(** * The serverless entry point *)
(* ================================================================== *)

Section EntrypointFacts.

Import Entrypoint.
Context `{Runtime}.

(** An exception of the statements after the [try] block leaves the
    handler as it is. *)
Lemma handler_after_getRequest (req : IncomingMessage) (res : ServerResponse)
    (request : Request) :
  getRequest ("https://" ++ host_text req) req = JS.Ok request ->
  handler req res = respond request res.
Proof. intros Hg. unfold handler. now rewrite Hg. Qed.

(** C3, as the code has it: an object thrown by [getRequest] is caught
    and answered, with its [status] or 400 and its [reason] or Invalid
    request body, and the handler returns; whatever [app.match],
    [JSON.parse] of the locals header, [app.render] or [setResponse]
    throws reaches the caller, and the response is untouched when the
    exception comes before [setResponse]. *)
Theorem handler_recovers_only_from_getRequest
    (req : IncomingMessage) (res : ServerResponse) :
  (forall name status reason,
      getRequest ("https://" ++ host_text req) req
      = JS.Throw (Exception name status reason) ->
      handler req res
      = (JS.Ok tt,
         {| statusCode := status_or_400 status;
            ended := Some (JS.or_else reason "Invalid request body") |}))
  /\ (forall request e,
         getRequest ("https://" ++ host_text req) req = JS.Ok request ->
         app_match request = JS.Throw e ->
         handler req res = (JS.Throw e, res))
  /\ (forall request routeData text e,
         getRequest ("https://" ++ host_text req) req = JS.Ok request ->
         app_match request = JS.Ok routeData ->
         headers_get request Serverless.ASTRO_LOCALS_HEADER = Some text ->
         text <> EmptyString ->
         JSON_parse text = JS.Throw e ->
         handler req res = (JS.Throw e, res))
  /\ (forall request routeData locals e,
         getRequest ("https://" ++ host_text req) req = JS.Ok request ->
         app_match request = JS.Ok routeData ->
         read_locals request = JS.Ok locals ->
         app_render request routeData locals = JS.Throw e ->
         handler req res = (JS.Throw e, res))
  /\ (forall request routeData locals response e,
         getRequest ("https://" ++ host_text req) req = JS.Ok request ->
         app_match request = JS.Ok routeData ->
         read_locals request = JS.Ok locals ->
         app_render request routeData locals = JS.Ok response ->
         fst (setResponse response res) = JS.Throw e ->
         fst (handler req res) = JS.Throw e).
Proof.
  repeat split.
  - intros name status reason Hg. unfold handler. now rewrite Hg.
  - intros request e Hg Hm.
    rewrite (handler_after_getRequest _ _ _ Hg). unfold respond.
    now rewrite Hm.
  - intros request routeData text e Hg Hm Hh Ht Hp.
    rewrite (handler_after_getRequest _ _ _ Hg). unfold respond, read_locals.
    rewrite Hm, Hh. destruct text; [now elim Ht|]. simpl. now rewrite Hp.
  - intros request routeData locals e Hg Hm Hl Hr.
    rewrite (handler_after_getRequest _ _ _ Hg). unfold respond.
    now rewrite Hm, Hl, Hr.
  - intros request routeData locals response e Hg Hm Hl Hr Hs.
    rewrite (handler_after_getRequest _ _ _ Hg). unfold respond.
    now rewrite Hm, Hl, Hr.
Qed.

End EntrypointFacts.

(* ================================================================== *)
(** * The comment action *)
(* ================================================================== *)

Section ActionsFacts.

Import Actions.

Lemma find_post_none (w : World) (p : string) :
  (forall e, In e (blog w) -> id e <> p) ->
  find (fun b => String.eqb (id b) p) (blog w) = None.
Proof.
  intros Hno. destruct (find _ (blog w)) as [e|] eqn:Hf; [|reflexivity].
  apply find_some in Hf. destruct Hf as [Hin He].
  apply String.eqb_eq in He. now elim (Hno e Hin).
Qed.

Lemma find_post_some (w : World) (p : string) :
  (exists e, In e (blog w) /\ id e = p) ->
  exists e, find (fun b => String.eqb (id b) p) (blog w) = Some e.
Proof.
  intros [e [Hin He]].
  destruct (find _ (blog w)) as [e'|] eqn:Hf; [now exists e'|].
  apply (find_none _ _ Hf) in Hin. rewrite He, String.eqb_refl in Hin.
  discriminate.
Qed.

(** The handler on a post that is not in the collection. *)
Lemma handler_not_found (input : Input) (w : World) :
  (forall e, In e (blog w) -> id e <> in_postId input) ->
  handler input w
  = (JS.Throw {| code := "NOT_FOUND"; message := "Post not found" |}, w).
Proof. intros Hno. unfold handler. now rewrite find_post_none. Qed.

(** The handler on a post of the collection. *)
Lemma handler_inserts (input : Input) (w : World) :
  (exists e, In e (blog w) /\ id e = in_postId input) ->
  let row := {| postId := in_postId input;
                body := in_body input;
                author := in_author input |} in
  handler input w
  = (JS.Ok row, {| blog := blog w; Comment := (Comment w ++ [row])%list |}).
Proof.
  intros He row. unfold handler.
  destruct (find_post_some w _ He) as [e Hf]. now rewrite Hf.
Qed.

Lemma issues_none (f : FormData) (p a b : string) :
  form_get "postId" f = Some p ->
  form_get "author" f = Some a ->
  form_get "body" f = Some b ->
  10 <= String.length b ->
  issues f = [].
Proof.
  intros Hp Ha Hb Hlen. unfold issues. rewrite Hp, Ha, Hb.
  apply Nat.leb_le in Hlen. now rewrite Hlen.
Qed.

(** C5: the comment action runs its handler only on a form whose body
    has ten characters or more, and reports a shorter body as an input
    error on [body] without touching the table; the handler throws the
    ActionError NOT_FOUND, Post not found, for a postId that matches no
    entry of the blog collection; on a valid form whose postId matches
    an entry, the row (postId, body, author) is appended to the Comment
    table and returned. *)
Theorem comment_validates_then_inserts (f : FormData) (w : World) :
  (forall b,
      form_get "body" f = Some b -> String.length b < 10 ->
      exists fields,
        comment f w = (InputError fields, w) /\ In "body" fields)
  /\ (forall o w',
         comment f w = (o, w') ->
         (forall fields, o <> InputError fields) ->
         exists b, form_get "body" f = Some b /\ 10 <= String.length b)
  /\ (forall input,
         (forall e, In e (blog w) -> id e <> in_postId input) ->
         handler input w
         = (JS.Throw {| code := "NOT_FOUND"; message := "Post not found" |},
            w))
  /\ (forall p a b,
         form_get "postId" f = Some p ->
         form_get "author" f = Some a ->
         form_get "body" f = Some b ->
         10 <= String.length b ->
         (forall e, In e (blog w) -> id e <> p) ->
         comment f w
         = (Failed {| code := "NOT_FOUND"; message := "Post not found" |}, w))
  /\ (forall p a b,
         form_get "postId" f = Some p ->
         form_get "author" f = Some a ->
         form_get "body" f = Some b ->
         10 <= String.length b ->
         (exists e, In e (blog w) /\ id e = p) ->
         let row := {| postId := p; body := b; author := a |} in
         comment f w
         = (Data row,
            {| blog := blog w; Comment := (Comment w ++ [row])%list |})).
Proof.
  repeat split.
  - intros b Hb Hlen.
    assert (Hi : In "body" (issues f)).
    { unfold issues. rewrite Hb.
      replace (10 <=? String.length b)%nat with false
        by (symmetry; apply Nat.leb_gt; lia).
      apply in_or_app; right. apply in_or_app; right. now left. }
    exists (issues f). split; [|exact Hi].
    unfold comment. destruct (issues f) as [|x l]; [contradiction|].
    reflexivity.
  - intros o w' Hc Hdata. unfold comment in Hc.
    destruct (issues f) as [|x l] eqn:Hi.
    + destruct (form_get "body" f) as [b|] eqn:Hb.
      * exists b. split; [reflexivity|].
        unfold issues in Hi. rewrite Hb in Hi.
        destruct (10 <=? String.length b)%nat eqn:Hlen;
          [now apply Nat.leb_le|].
        apply (f_equal (@List.length string)) in Hi.
        rewrite !length_app in Hi. simpl in Hi. lia.
      * unfold issues in Hi. rewrite Hb in Hi.
        apply (f_equal (@List.length string)) in Hi.
        rewrite !length_app in Hi. simpl in Hi. lia.
    + injection Hc as <- _. now elim (Hdata (x :: l)).
  - intros input. apply handler_not_found.
  - intros p a b Hp Ha Hb Hlen Hno. unfold comment.
    rewrite (issues_none f p a b Hp Ha Hb Hlen), Hp, Ha, Hb.
    now rewrite handler_not_found.
  - intros p a b Hp Ha Hb Hlen He row. unfold comment.
    rewrite (issues_none f p a b Hp Ha Hb Hlen), Hp, Ha, Hb.
    now rewrite handler_inserts.
Qed.

End ActionsFacts.


(* ================================================================== *)
(** * The model at work on a sample build *)
(* ================================================================== *)

Section Runs.

Import Host.

(** The two sample routes get the functions blog/[slug].astro and
    feed.astro, one folder each, and the hook runs to its end. *)
Lemma names_one_function_per_entry_run :
  exists c' warnings events,
    @Serverless.package_functions Sample.api Sample.options "v18.17.0"
      tt Sample.built []
    = (JS.Ok [ {| Serverless.src := "^\/blog\/([^/]+?)\/?$";
                  Serverless.dest := "blog/[slug].astro" |};
               {| Serverless.src := "^\/feed\/?$";
                  Serverless.dest := "feed.astro" |} ],
       c', (warnings ++ events)%list)
    /\ @Serverless.function_folders Sample.api events
       = [ "file:///app/.zeabur/output/functions/blog/[slug].astro.func/";
           "file:///app/.zeabur/output/functions/feed.astro.func/" ]
    /\ @Serverless.build_done Sample.api Sample.options "v18.17.0"
         tt Sample.built []
       = (JS.Ok tt, c',
          (warnings ++ events
             ++ [ WriteJson (H := Sample.api)
                    "file:///app/.zeabur/output/config.json"
                    Serverless.manifest;
                  RemoveDir (H := Sample.api) "file:///app/dist/" ])%list).
Proof.
  destruct (@build_done_names_one_function_per_entry Sample.api
              Sample.options "v18.17.0" tt Sample.built [] Sample.entryPoints)
    as (c' & ws & evs & _ & Hdone & Hrun & Hfolders & _).
  - intros E. vm_compute in E. discriminate E.
  - reflexivity.
  - exists c', ws, evs.
    split; [exact Hrun|]. split; [exact Hfolders | exact Hdone].
Defined.

(** C2, against the claim as stated: on a Node.js version
    [validateRuntime] accepts, the build of one route outside
    src/pages/ whose entry file is reentry.page.mjs makes the one
    function repage, where the base name with the entry. prefix and
    the .mjs suffix removed is reentry.page: [replace] removes the
    first entry. of the base name, which here is not at its start. *)
Lemma function_name_loses_inner_entry :
  exists c' log',
    @Serverless.build_done Sample.api Sample.options "v18.17.0"
      tt Sample2.odd_built []
    = (JS.Ok tt, c', log')
    /\ Serverless._entryPoints Sample2.odd_built
       = Some [(Sample.injected_route, Sample2.odd_entry)]
    /\ JS.startsWith (Serverless.component Sample.injected_route)
         "src/pages/"
       = false
    /\ JS.basename Sample2.odd_entry = "reentry.page.mjs"
    /\ @Serverless.function_folders Sample.api log'
       = [ "file:///app/.zeabur/output/functions/repage.func/" ]
    /\ @Serverless.func Sample.api Sample.injected_route Sample2.odd_entry
       = "repage"
    /\ @Serverless.func_as_specified Sample.api Sample.injected_route
         Sample2.odd_entry
       = "reentry.page".
Proof.
  eexists. eexists. split; [vm_compute; reflexivity|].
  repeat split; vm_compute; reflexivity.
Qed.

(** The same build ends with the fixed manifest. *)
Lemma writes_fixed_manifest_run :
  exists c' events,
    @Serverless.build_done Sample.api Sample.options "v18.17.0"
      tt Sample.built []
    = (JS.Ok tt, c',
       (events
          ++ [ WriteJson (H := Sample.api)
                 "file:///app/.zeabur/output/config.json"
                 Serverless.manifest;
               RemoveDir (H := Sample.api) "file:///app/dist/" ])%list).
Proof.
  destruct (@build_done_writes_fixed_manifest Sample.api
              Sample.options "v18.17.0" tt Sample.built [] Sample.entryPoints)
    as (c' & evs & defs & _ & _ & Hrun & _).
  - intros E. vm_compute in E. discriminate E.
  - reflexivity.
  - exists c', evs. exact Hrun.
Defined.

(** C1, against the claim as stated: the sample build processes the
    blog route and chooses a function for it, yet the only value
    written to config.json holds no entry from that route's pattern to
    that function, and no other file written does. *)
Lemma manifest_lacks_route_entries :
  exists c' log',
    @Serverless.build_done Sample.api Sample.options "v18.17.0"
      tt Sample.built []
    = (JS.Ok tt, c', log')
    /\ In (Sample.blog_route, Sample.blog_entry) Sample.entryPoints
    /\ @Serverless.written Sample.api
         "file:///app/.zeabur/output/config.json" String.eqb log'
       = [Serverless.manifest]
    /\ has_route Serverless.manifest
         (Serverless.pattern_source Sample.blog_route)
         (@Serverless.func Sample.api Sample.blog_route Sample.blog_entry)
       = false
    /\ forallb (fun e =>
                  match e with
                  | WriteJson _ value =>
                      negb (has_route value
                              (Serverless.pattern_source Sample.blog_route)
                              (@Serverless.func Sample.api Sample.blog_route
                                 Sample.blog_entry))
                  | _ => true
                  end) log'
       = true.
Proof.
  eexists. eexists. split; [vm_compute; reflexivity|].
  split; [left; reflexivity|].
  repeat split; vm_compute; reflexivity.
Qed.

(** Arguments that differ in [maxDuration] give the same run. *)
Lemma ignores_maxDuration_run :
  @Serverless.createFunctionFolder Sample.api unit
    (Sample.args (Some 10%Z)) tt []
  = @Serverless.createFunctionFolder Sample.api unit
      (Sample.args (Some 900%Z)) tt [].
Proof.
  apply (@createFunctionFolder_ignores_maxDuration Sample.api unit).
  unfold Serverless.same_but_maxDuration. repeat split; reflexivity.
Defined.

(** C3, against the claim as stated: [getRequest] throws while the
    sample request is handled, and the handler returns normally with
    the status 400 instead of passing the error on. *)
Lemma handler_answers_rejected_request :
  exists e,
    @Entrypoint.thrown_while_handling Sample.rejecting
      Sample.request Sample.response e
    /\ @Entrypoint.handler Sample.rejecting Sample.request Sample.response
       = (JS.Ok tt,
          {| Entrypoint.statusCode := 400;
             Entrypoint.ended := Some "Invalid request body" |})
    /\ fst (@Entrypoint.handler Sample.rejecting
              Sample.request Sample.response)
       <> JS.Throw e.
Proof.
  exists (Entrypoint.Exception "Error" None None).
  split; [now apply Entrypoint.in_getRequest|].
  split; [reflexivity | discriminate].
Qed.

(** So the reading under which every error reaches the caller fails. *)
Lemma not_every_error_propagates : ~ Entrypoint.propagates_every_error.
Proof.
  intros Hall.
  specialize (Hall Sample.rejecting Sample.request Sample.response
                (Entrypoint.Exception "Error" None None)).
  assert (Ht : @Entrypoint.thrown_while_handling Sample.rejecting
                 Sample.request Sample.response
                 (Entrypoint.Exception "Error" None None))
    by now apply Entrypoint.in_getRequest.
  specialize (Hall Ht). discriminate Hall.
Qed.

(** An error of [app.render] reaches the caller of the handler. *)
Lemma propagates_render_error_run :
  @Entrypoint.handler Sample.failing_render Sample.request Sample.response
  = (JS.Throw (Entrypoint.Exception "Error" None None), Sample.response).
Proof.
  apply (proj1 (proj2 (proj2 (proj2
           (@handler_recovers_only_from_getRequest Sample.failing_render
              Sample.request Sample.response))))
         "https://example.com" None "{}");
    reflexivity.
Defined.

(** A long enough comment on an existing post is stored and returned. *)
Lemma comment_run :
  Actions.comment Sample.form Sample.world
  = (Actions.Data
       {| Actions.postId := "first-post";
          Actions.body := "Client: This should be long enough.";
          Actions.author := "Ben" |},
     {| Actions.blog := Actions.blog Sample.world;
        Actions.Comment :=
          [ {| Actions.postId := "first-post";
               Actions.body := "Client: This should be long enough.";
               Actions.author := "Ben" |} ] |}).
Proof.
  apply (proj2 (proj2 (proj2 (proj2
           (comment_validates_then_inserts Sample.form Sample.world))))
         "first-post" "Ben" "Client: This should be long enough.");
    try reflexivity.
  - apply Nat.leb_le. reflexivity.
  - exists {| Actions.id := "first-post" |}. split; [now left | reflexivity].
Defined.

(** The fixture's tests: a nine-character body is refused, and a post
    that does not exist is reported as not found. *)
Lemma comment_too_short_run :
  Actions.comment
    [("postId", "first-post"); ("author", "Ben"); ("body", "Too short")]
    Sample.world
  = (Actions.InputError ["body"], Sample.world).
Proof. reflexivity. Qed.

Lemma comment_bogus_post_run :
  Actions.comment
    [("postId", "bogus"); ("author", "Ben");
     ("body", "This should be long enough.")]
    Sample.world
  = (Actions.Failed {| Actions.code := "NOT_FOUND";
                       Actions.message := "Post not found" |},
     Sample.world).
Proof. reflexivity. Qed.

(** With appEntrypoint ./src/app the module imports the resolved path. *)
Lemma vue_load_run :
  exists code,
    Vue.load
      (Vue.configResolved Sample.path_resolve Sample.vue_options "/root"
         (Vue.config "build" Vue.fresh))
      Vue.RESOLVED_VIRTUAL_MODULE_ID
    = Some code
    /\ JS.startsWith code
         ("import * as mod from " ++ JS.dq ++ "/root/src/app" ++ JS.dq ++ ";")
       = true.
Proof.
  destruct (proj2 (proj2 (proj2 (proj2
              (virtualAppEntrypoint_resolves_and_loads
                 Sample.path_resolve Sample.vue_options))))
            (Vue.config "build" Vue.fresh) "/root" "./src/app")
    as (warning & Hload & _); try reflexivity.
  eexists. split; [exact Hload | reflexivity].
Defined.

End Runs.

(* ================================================================== *)
(** * More on the serverless adapter *)
(* ================================================================== *)

Section ServerlessMore.

Import Host Serverless ServerlessSetup.
Context `{Api}.

(** ** validateRuntime, version by version *)

Lemma digits_are_no_prototype_key (major : string) :
  all_digits major = true -> ~ In major Object_prototype_keys.
Proof.
  intros Hd Hin. unfold Object_prototype_keys in Hin. simpl in Hin.
  repeat (destruct Hin as [E|Hin]; [subst major; discriminate Hd|]).
  exact Hin.
Qed.

(** X1: what [validateRuntime] prints is decided by the major version
    alone: nothing on 18, the two beta warnings on 20, the three
    deprecation warnings with the removal date on 16; in each case it
    returns and leaves the closure alone. *)
Theorem validateRuntime_by_major {S : Type} (v : string) (s : S)
    (log : list Event) :
  In (node_major v) ["16"; "18"; "20"] ->
  validateRuntime v s log
  = (JS.Ok tt, s,
     (log
        ++ if String.eqb (node_major v) "18" then []
           else if String.eqb (node_major v) "20" then
             [ ConsoleWarn "[@zeabur/astro-adapter/serverless] The local Node.js version (20) is currently in beta for Vercel Serverless Functions.";
               ConsoleWarn "[@zeabur/astro-adapter/serverless] Make sure to update your Vercel settings to use 20." ]
           else
             [ ConsoleWarn "[@zeabur/astro-adapter/serverless] Your project is being built for Node.js 16 as the runtime.";
               ConsoleWarn ("[@zeabur/astro-adapter/serverless] This version is deprecated by Vercel Serverless Functions, and scheduled to be disabled on "
                            ++ formatLongDate "February 6 2024" ++ ".");
               ConsoleWarn "[@zeabur/astro-adapter/serverless] Consider upgrading your local version to 18." ])%list).
Proof.
  intros Hin. unfold validateRuntime. fold (node_major v).
  simpl in Hin. destruct Hin as [E|[E|[E|[]]]]; rewrite <- E.
  - unfold bindM, status_of, ret, warn, emit; simpl.
    rewrite <- !app_assoc. reflexivity.
  - unfold bindM, status_of, ret; simpl. now rewrite app_nil_r.
  - unfold bindM, status_of, ret, warn, emit; simpl.
    rewrite <- !app_assoc. reflexivity.
Qed.

(** X2: on every version whose major is a decimal number other than 16,
    18 and 20, [validateRuntime] throws the TypeError of reading
    [status] off undefined, and writes nothing. *)
Theorem validateRuntime_rejects_other_numbers {S : Type} (v : string) (s : S)
    (log : list Event) :
  all_digits (node_major v) = true ->
  ~ In (node_major v) ["16"; "18"; "20"] ->
  validateRuntime v s log
  = (JS.Throw (TypeError "Cannot read properties of undefined (reading 'status')"),
     s, log).
Proof.
  intros Hd Hn. apply validateRuntime_undefined.
  apply lookup_unknown_major.
  - intros E. apply Hn. rewrite E. simpl. auto.
  - intros E. apply Hn. rewrite E. simpl. auto.
  - intros E. apply Hn. rewrite E. simpl. auto.
  - now apply digits_are_no_prototype_key.
Qed.

(** X3: whatever the version, [validateRuntime] only appends to the
    log, at most three entries, all of them console warnings and none
    of them the announcement that Node.js 18 will be used instead; the
    entries depend on the version only, and it never touches the
    closure. *)
Theorem validateRuntime_only_appends_warnings (v : string) :
  exists (r : JS.result Error unit) (new : list Event),
    (forall (S : Type) (s : S) (log : list Event),
        validateRuntime v s log = (r, s, (log ++ new)%list))
    /\ Forall is_warning new
    /\ List.length new <= 3
    /\ (r <> JS.Ok tt -> new = [])
    /\ ~ In (ConsoleWarn "[@zeabur/astro-adapter/serverless] Your project will use Node.js 18 as the runtime instead.")
            new.
Proof.
  assert (Hmain :
            exists (r : JS.result Error unit) (new : list Event),
              (forall (S : Type) (s : S) (log : list Event),
                  validateRuntime v s log = (r, s, (log ++ new)%list))
              /\ Forall is_warning new
              /\ List.length new <= 3
              /\ (r <> JS.Ok tt -> new = [])).
  { unfold validateRuntime. fold (node_major v).
    destruct (SUPPORTED_NODE_VERSIONS (node_major v)) as [status removal| |].
    - destruct (String.eqb status "beta") eqn:Hb.
      + eexists; eexists. split.
        { intros S s log. unfold bindM, status_of, ret, warn, emit; simpl.
          rewrite Hb. rewrite <- !app_assoc. reflexivity. }
        split; [repeat constructor|]. split; [simpl; lia|].
        intros E; now elim E.
      + destruct (String.eqb status "deprecated") eqn:Hd.
        * eexists; eexists. split.
          { intros S s log. unfold bindM, status_of, ret, warn, emit; simpl.
            rewrite Hb, Hd. rewrite <- !app_assoc. reflexivity. }
          split; [repeat constructor|]. split; [simpl; lia|].
          intros E; now elim E.
        * exists (JS.Ok tt), []. split.
          { intros S s log. unfold bindM, status_of, ret; simpl.
            rewrite Hb, Hd, app_nil_r. reflexivity. }
          split; [constructor|]. split; [simpl; lia | reflexivity].
    - exists (JS.Ok tt), []. split.
      { intros S s log. now rewrite app_nil_r. }
      split; [constructor|]. split; [simpl; lia | reflexivity].
    - eexists; exists []. split.
      { intros S s log. rewrite app_nil_r. reflexivity. }
      split; [constructor|]. split; [simpl; lia | reflexivity]. }
  destruct Hmain as (r & new & Hrun & Hw & Hlen & Hthrow).
  exists r, new. repeat split; try assumption.
  intros Hin.
  pose proof (@unsupported_branch_unreachable _ unit v tt []) as Hu.
  cbv zeta in Hu. rewrite Hrun in Hu. simpl in Hu. now apply Hu.
Qed.

(** ** The options and astro:config:setup *)

(** X4: [vercelServerless] builds the integration exactly when
    [maxDuration] is undefined, a falsy value of another type, a zero,
    NaN or a number above zero (the positive infinity included); it
    throws the TypeError maxDuration must be a number exactly for a
    truthy value that is no number, and the TypeError maxDuration must
    be a positive number exactly for a number below zero.  Zero and NaN
    are let through by the truthiness test that guards both checks. *)
Theorem vercelServerless_accepts_iff (maxDuration : Value) :
  (vercelServerless maxDuration = JS.Ok tt
   <-> match maxDuration with
       | NoValue => True
       | Num n =>
           above_zero n = true \/ n = NaN \/ exists e, n = Finite 0 e
       | NotNumber truthy => truthy = false
       end)
  /\ (vercelServerless maxDuration
      = JS.Throw (TypeError "maxDuration must be a number")
      <-> maxDuration = NotNumber true)
  /\ (vercelServerless maxDuration
      = JS.Throw (TypeError "maxDuration must be a positive number")
      <-> exists n, maxDuration = Num n /\ below_zero n = true).
Proof.
  unfold vercelServerless.
  destruct maxDuration as [|[m e| |negative]|truthy]; simpl.
  - split; [split; trivial|].
    split; (split; [discriminate|]).
    + discriminate.
    + intros (n & Hn & _). discriminate Hn.
  - destruct (Z.eqb_spec m 0) as [->|Hm]; simpl.
    + split; [split; [intros _; right; right; now exists e | reflexivity]|].
      split; (split; [discriminate|]).
      * discriminate.
      * intros (n & [= <-] & Hn). simpl in Hn. discriminate Hn.
    + destruct (Z.leb_spec m 0) as [Hle|Hgt].
      * split.
        { split; [discriminate|].
          intros [Hp|[Hn|(e' & He)]].
          - apply Z.ltb_lt in Hp. lia.
          - discriminate Hn.
          - injection He as Hm' _. contradiction. }
        split; [split; discriminate|].
        split; [intros _|reflexivity].
        exists (Finite m e). split; [reflexivity|]. simpl.
        apply Z.ltb_lt. lia.
      * split.
        { split; [intros _; left; apply Z.ltb_lt; lia | reflexivity]. }
        split; (split; [discriminate|]).
        -- discriminate.
        -- intros (n & [= <-] & Hn). simpl in Hn.
           apply Z.ltb_lt in Hn. lia.
  - split; [split; [intros _; right; now left | reflexivity]|].
    split; (split; [discriminate|]).
    + discriminate.
    + intros (n & [= <-] & Hn). discriminate Hn.
  - destruct negative; simpl.
    + split.
      { split; [discriminate|].
        intros [Hp|[Hn|(e' & He)]]; discriminate. }
      split; [split; discriminate|].
      split; [intros _|reflexivity].
      now exists (Infinity true).
    + split; [split; [intros _; now left | reflexivity]|].
      split; (split; [discriminate|]).
      * discriminate.
      * intros (n & [= <-] & Hn). discriminate Hn.
  - destruct truthy.
    + split; [split; discriminate|].
      split; [split; reflexivity|].
      split; [discriminate|]. intros (n & Hn & _). discriminate Hn.
    + split; [split; reflexivity|].
      split; (split; [discriminate|]).
      * discriminate.
      * intros (n & Hn & _). discriminate Hn.
Qed.

(** X5: astro:config:setup warns, with two messages, exactly when
    [maxDuration] is above 900 seconds, and stays silent otherwise; the
    update it asks for does not depend on [maxDuration]. *)
Theorem config_setup_warns_iff_above_900 (o : Options) (config_root : URL) :
  (fst (config_setup o config_root) <> []
   <-> exists d, maxDuration o = Some d /\ (900 < d)%Z)
  /\ (fst (config_setup o config_root) = []
      \/ List.length (fst (config_setup o config_root)) = 2)
  /\ snd (config_setup o config_root)
     = {| up_outDir := getOutput config_root;
          up_serverEntry := "index.mjs";
          up_client := new_URL "./static/" (getOutput config_root);
          up_server := new_URL "./dist/" config_root;
          up_redirects := false;
          up_ssr_external := ["@vercel/nft"] |}.
Proof.
  unfold config_setup, too_long. destruct (maxDuration o) as [d|]; simpl.
  - destruct (Z.eqb_spec d 0) as [->|Hz]; simpl.
    + split; [|split; [now left | reflexivity]].
      split; [intros E; now elim E|]. intros [d [[= <-] Hd]]. lia.
    + destruct (Z.ltb_spec 900 d) as [Hgt|Hle].
      * split; [|split; [now right | reflexivity]].
        split; [intros _; now exists d | discriminate].
      * split; [|split; [now left | reflexivity]].
        split; [intros E; now elim E|]. intros [d' [[= <-] Hd]]. lia.
  - split; [|split; [now left | reflexivity]].
    split; [intros E; now elim E|]. intros [d [Hd _]]. discriminate Hd.
Qed.

(** ** astro:build:done: what it needs, what it passes on *)

(** The first step of the hook merges the globbed assets and makes no
    helper call. *)
Lemma merge_step_run (c : Closure) (log : list Event) :
  (c0 <- get ;;
   (if assets_truthy (vite_assetsInclude (_config c0)) then
      match vite_assetsInclude (_config c0) with
      | Some g => put (push_extraFiles (mergeGlobbedIncludes g) c0)
      | None => ret tt
      end
    else ret tt)) c log
  = (JS.Ok tt, merged c, log).
Proof.
  unfold bindM, get, merged.
  destruct (assets_truthy _); [|reflexivity].
  now destruct (vite_assetsInclude _).
Qed.

Lemma build_done_without_entries_run
    (o : Options) (v : string) (logger : Logger) (c : Closure)
    (log : list Event) :
  SUPPORTED_NODE_VERSIONS (node_major v) <> Undefined ->
  _entryPoints c = None ->
  exists warnings,
    Forall is_warning warnings
    /\ build_done o v logger c log
       = (JS.Throw (TypeError "Cannot read properties of undefined (reading 'size')"),
          merged c, (log ++ warnings)%list).
Proof.
  intros Hv He.
  destruct (validateRuntime_defined v Hv) as (ws & Hws & Hrun).
  exists ws. split; [exact Hws|].
  pose proof (merge_step_run c log) as Hm. unfold bindM, get in Hm.
  unfold build_done, package_functions.
  unfold bindM at 1. unfold bindM at 1. unfold get at 1.
  unfold bindM at 1. rewrite Hm.
  unfold bindM at 1. unfold get at 1. unfold bindM at 1.
  rewrite Hrun, merged_entryPoints, He. reflexivity.
Qed.

Lemma build_done_rejected_run
    (o : Options) (v : string) (logger : Logger) (c : Closure)
    (log : list Event) :
  SUPPORTED_NODE_VERSIONS (node_major v) = Undefined ->
  build_done o v logger c log
  = (JS.Throw (TypeError "Cannot read properties of undefined (reading 'status')"),
     merged c, log).
Proof.
  intros Hv.
  pose proof (merge_step_run c log) as Hm. unfold bindM, get in Hm.
  unfold build_done, package_functions.
  unfold bindM at 1. unfold bindM at 1. unfold get at 1.
  unfold bindM at 1. rewrite Hm.
  unfold bindM at 1. unfold get at 1. unfold bindM at 1.
  now rewrite (validateRuntime_undefined v _ _ Hv).
Qed.

Lemma helper_calls_of_warnings (ws : list Event) :
  Forall is_warning ws -> helper_calls ws = [].
Proof.
  induction 1 as [|e ws He _ IH]; [reflexivity|].
  destruct e; simpl in He; try contradiction. exact IH.
Qed.

(** X6: when astro:build:ssr has not stored the entry points,
    astro:build:done throws the TypeError of reading [size] off
    undefined: no function folder is made, no manifest is written and
    the temporary folder is not removed; only the runtime warnings
    reach the log. *)
Theorem build_done_needs_build_ssr
    (o : Options) (v : string) (logger : Logger) (c : Closure)
    (log : list Event) :
  SUPPORTED_NODE_VERSIONS (node_major v) <> Undefined ->
  _entryPoints c = None ->
  exists warnings,
    Forall is_warning warnings
    /\ build_done o v logger c log
       = (JS.Throw (TypeError "Cannot read properties of undefined (reading 'size')"),
          merged c, (log ++ warnings)%list)
    /\ helper_calls (log ++ warnings) = helper_calls log.
Proof.
  intros Hv He.
  destruct (build_done_without_entries_run o v logger c log Hv He)
    as (ws & Hws & Hrun).
  exists ws. split; [exact Hws|]. split; [exact Hrun|].
  unfold helper_calls. rewrite filter_app. fold (helper_calls ws).
  now rewrite (helper_calls_of_warnings ws Hws), app_nil_r.
Qed.

(** X7: on a Node.js version [validateRuntime] rejects,
    astro:build:done stops at that call: the log is exactly what it
    was, so no function is packaged, no manifest written and the
    temporary folder is left in place, whatever the entry points. *)
Theorem build_done_stops_on_rejected_runtime
    (o : Options) (v : string) (logger : Logger) (c : Closure)
    (log : list Event) :
  SUPPORTED_NODE_VERSIONS (node_major v) = Undefined ->
  build_done o v logger c log
  = (JS.Throw (TypeError "Cannot read properties of undefined (reading 'status')"),
     merged c, log)
  /\ function_folders (snd (build_done o v logger c log))
     = function_folders log
  /\ ~ In (RemoveDir (buildTempFolder c))
          (skipn (List.length log) (snd (build_done o v logger c log))).
Proof.
  intros Hv. rewrite (build_done_rejected_run o v logger c log Hv). simpl.
  split; [reflexivity|]. split; [reflexivity|].
  rewrite skipn_all. intros [].
Qed.

(** ** mergeGlobbedIncludes *)

Lemma mergeGlobbedIncludes_flat (g : GlobPattern) :
  mergeGlobbedIncludes g
  = map pathToFileURL (flat_map glob_sync (patterns g)).
Proof.
  revert g. fix IH 1. intros [p|l|].
  - simpl. now rewrite app_nil_r.
  - simpl. induction l as [|g l IHl]; [reflexivity|].
    simpl. rewrite flat_map_app, map_app. now rewrite <- IHl, <- IH.
  - reflexivity.
Qed.

(** X8: [mergeGlobbedIncludes] globs the strings of its argument and
    nothing else: arrays are walked at any depth, from left to right,
    values that are neither strings nor arrays are skipped, and the
    files pushed are the matches of each string, in that order. *)
Theorem mergeGlobbedIncludes_flattens (g : GlobPattern) :
  mergeGlobbedIncludes g
  = map pathToFileURL (flat_map glob_sync (patterns g))
  /\ mergeGlobbedIncludes (GlobArray [g]) = mergeGlobbedIncludes g
  /\ (forall l1 l2,
         mergeGlobbedIncludes (GlobArray (l1 ++ l2))
         = (mergeGlobbedIncludes (GlobArray l1)
              ++ mergeGlobbedIncludes (GlobArray l2))%list)
  /\ mergeGlobbedIncludes (GlobArray [GlobOther; g; GlobArray []])
     = mergeGlobbedIncludes g.
Proof.
  split; [apply mergeGlobbedIncludes_flat|]. split; [|split].
  - simpl. apply app_nil_r.
  - intros l1 l2. simpl. apply flat_map_app.
  - simpl. now rewrite app_nil_r.
Qed.

Lemma merged_pushes (c : Closure) :
  exists pushed,
    extraFilesToInclude (merged c) = (extraFilesToInclude c ++ pushed)%list
    /\ pushed
       = match vite_assetsInclude (_config c) with
         | None => []
         | Some (GlobString EmptyString) => []
         | Some g => mergeGlobbedIncludes g
         end.
Proof.
  unfold merged. destruct (vite_assetsInclude (_config c)) as [g|] eqn:Hg.
  - destruct g as [p|l|].
    + destruct p as [|ch p]; simpl.
      * exists []. rewrite app_nil_r. split; reflexivity.
      * eexists. split; reflexivity.
    + simpl assets_truthy. cbv iota. eexists. split; reflexivity.
    + simpl. eexists. split; reflexivity.
  - exists []. simpl. rewrite app_nil_r. split; reflexivity.
Qed.

Lemma build_done_closure (o : Options) (v : string) (logger : Logger)
    (c : Closure) (log : list Event) :
  snd (fst (build_done o v logger c log)) = merged c.
Proof.
  destruct (SUPPORTED_NODE_VERSIONS (node_major v)) eqn:Hv.
  - assert (Hd : SUPPORTED_NODE_VERSIONS (node_major v) <> Undefined)
      by (rewrite Hv; discriminate).
    destruct (_entryPoints c) as [entries|] eqn:He.
    + destruct (package_functions_run o v logger c log entries Hd He)
        as (ws & evs & _ & Hrun & _).
      unfold build_done. unfold bindM at 1. rewrite Hrun. reflexivity.
    + destruct (build_done_without_entries_run o v logger c log Hd He)
        as (ws & _ & Hrun).
      now rewrite Hrun.
  - assert (Hd : SUPPORTED_NODE_VERSIONS (node_major v) <> Undefined)
      by (rewrite Hv; discriminate).
    destruct (_entryPoints c) as [entries|] eqn:He.
    + destruct (package_functions_run o v logger c log entries Hd He)
        as (ws & evs & _ & Hrun & _).
      unfold build_done. unfold bindM at 1. rewrite Hrun. reflexivity.
    + destruct (build_done_without_entries_run o v logger c log Hd He)
        as (ws & _ & Hrun).
      now rewrite Hrun.
  - now rewrite (build_done_rejected_run o v logger c log Hv).
Qed.

(** X9: whether astro:build:done completes or throws, it leaves the
    closure with the globbed [vite.assetsInclude] files pushed behind
    those already in [extraFilesToInclude]: the matches of each string
    of the value, in order, and nothing when the value is undefined,
    the empty string or holds no string; the other closure variables
    keep their values. *)
Theorem build_done_pushes_globbed_files (o : Options) (v : string)
    (logger : Logger) (c : Closure) (log : list Event) :
  let c' := snd (fst (build_done o v logger c log)) in
  exists pushed,
    extraFilesToInclude c' = (extraFilesToInclude c ++ pushed)%list
    /\ pushed
       = match vite_assetsInclude (_config c) with
         | None => []
         | Some (GlobString EmptyString) => []
         | Some g => map pathToFileURL (flat_map glob_sync (patterns g))
         end
    /\ _config c' = _config c
    /\ _entryPoints c' = _entryPoints c
    /\ buildTempFolder c' = buildTempFolder c.
Proof.
  intros c'. subst c'. rewrite build_done_closure.
  destruct (merged_pushes c) as (pushed & Hp & Hv).
  exists pushed. split; [exact Hp|]. split.
  - rewrite Hv. destruct (vite_assetsInclude (_config c)) as [g|];
      [|reflexivity].
    destruct g as [[|ch p]|l|]; try reflexivity;
      apply mergeGlobbedIncludes_flat.
  - split; [apply merged_config|].
    split; [apply merged_entryPoints | apply merged_buildTempFolder].
Qed.

(** ** Function names *)

Lemma prefix_restores (p s : string) :
  String.prefix p s = true -> p ++ JS.slice_from (String.length p) s = s.
Proof.
  revert s; induction p as [|c p IH]; intros s Hp; simpl in *.
  - reflexivity.
  - destruct s as [|d s]; simpl in Hp; [discriminate|].
    destruct (ascii_dec c d) as [e|ne]; [subst d|discriminate].
    simpl. f_equal. now apply IH.
Qed.

(** X10: for a page, the function name is the component path without
    src/pages/, so putting src/pages/ back in front gives the
    component; the entry file plays no part in the name. *)
Theorem page_function_name_round_trip (route : RouteData) (entryFile : URL) :
  JS.startsWith (component route) "src/pages/" = true ->
  "src/pages/" ++ func route entryFile = component route
  /\ forall other : URL, func route other = func route entryFile.
Proof.
  intros Hp. unfold func, getRouteFuncName. rewrite Hp. split.
  - rewrite replace_unfold. unfold JS.startsWith in Hp. rewrite Hp.
    simpl append at 2. now apply (prefix_restores "src/pages/").
  - reflexivity.
Qed.

(** X11: for a route outside src/pages/, the function name is read off
    the base name of the entry file alone: two such routes whose entry
    files have the same base name, in whatever directories, get the
    same function name and so the same function folder. *)
Theorem fallback_names_collide_on_base_name
    (config : AstroConfig) (r1 r2 : RouteData) (e1 e2 : URL) :
  JS.startsWith (component r1) "src/pages/" = false ->
  JS.startsWith (component r2) "src/pages/" = false ->
  JS.basename (URL_toString e1) = JS.basename (URL_toString e2) ->
  func r1 e1 = func r2 e2
  /\ folder_of config (func r1 e1) = folder_of config (func r2 e2).
Proof.
  intros H1 H2 Hb. unfold func, getFallbackFuncName.
  rewrite H1, H2, Hb. split; reflexivity.
Qed.

(** ** From astro:config:done to the end of the build *)


(** The whole run of the hook, call by call. *)
Lemma package_functions_explicit (o : Options) (v : string)
    (logger : Logger) (c : Closure) (log : list Event)
    (entries : list (RouteData * URL)) :
  SUPPORTED_NODE_VERSIONS (node_major v) <> Undefined ->
  _entryPoints c = Some entries ->
  exists warnings defs,
    Forall is_warning warnings
    /\ Serverless.package_functions o v logger c log
       = (JS.Ok defs, merged c,
          (log ++ warnings ++ packaging_events o logger (merged c) entries)%list).
Proof.
  intros Hv He.
  destruct (validateRuntime_defined v Hv) as (ws & Hws & Hrun).
  exists ws.
  pose proof (merge_step_run c log) as Hm. unfold bindM, get in Hm.
  unfold Serverless.package_functions.
  unfold bindM at 1. unfold get at 1. unfold bindM at 1. rewrite Hm.
  unfold bindM at 1. unfold get at 1. unfold bindM at 1.
  rewrite Hrun, merged_entryPoints, He.
  destruct entries as [|e rest].
  - eexists. split; [exact Hws|].
    unfold createFunctionFolder, bindM, emit, ret, packaging_events, folder_of.
    simpl. rewrite <- !app_assoc. reflexivity.
  - eexists. split; [exact Hws|].
    rewrite each_entry_run. unfold packaging_events.
    rewrite <- app_assoc. reflexivity.
Qed.

Lemma build_done_explicit (o : Options) (v : string)
    (logger : Logger) (c : Closure) (log : list Event)
    (entries : list (RouteData * URL)) :
  SUPPORTED_NODE_VERSIONS (node_major v) <> Undefined ->
  _entryPoints c = Some entries ->
  exists warnings,
    Forall is_warning warnings
    /\ Serverless.build_done o v logger c log
       = (JS.Ok tt, merged c,
          (log ++ warnings ++ packaging_events o logger (merged c) entries
             ++ [ WriteJson (new_URL "./config.json" (outDir (_config c)))
                    manifest;
                  RemoveDir (buildTempFolder c) ])%list).
Proof.
  intros Hv He.
  destruct (package_functions_explicit o v logger c log entries Hv He)
    as (ws & defs & Hws & Hrun).
  exists ws. split; [exact Hws|].
  unfold Serverless.build_done. unfold bindM at 1. rewrite Hrun.
  unfold bindM, get, emit. simpl.
  rewrite merged_config, merged_buildTempFolder.
  rewrite <- !app_assoc. reflexivity.
Qed.




Lemma helper_calls_entries (o : Options) (logger : Logger) (c : Closure)
    (files : list URL) (l : list (RouteData * URL)) :
  helper_calls (flat_map (entry_events o logger c files) l)
  = flat_map (entry_events o logger c files) l
  /\ List.length (flat_map (entry_events o logger c files) l)
     = 2 * List.length l.
Proof.
  induction l as [|x l [IH1 IH2]]; [split; reflexivity|]. split.
  - simpl. unfold helper_calls in *. now rewrite IH1.
  - simpl flat_map. simpl List.length. rewrite IH2. lia.
Qed.

Lemma helper_calls_packaging (o : Options) (logger : Logger) (c : Closure)
    (entries : list (RouteData * URL)) :
  helper_calls (packaging_events o logger c entries)
  = packaging_events o logger c entries
  /\ List.length (packaging_events o logger c entries)
     = 2 * Nat.max 1 (List.length entries).
Proof.
  unfold packaging_events. destruct entries as [|e rest];
    [split; reflexivity|].
  apply helper_calls_entries.
Qed.

(** X12: on a Node.js version it accepts and once the entry points are
    stored, astro:build:done makes its helper calls in this order: for
    each entry point in turn (or once, for the catch-all function) the
    dependency tracer and then the package.json of the folder, then the
    manifest, then the removal of the temporary folder; that is two
    calls per function and two more. *)
Theorem build_done_call_order
    (o : Options) (v : string) (logger : Logger) (c : Closure)
    (log : list Event) (entries : list (RouteData * URL)) :
  SUPPORTED_NODE_VERSIONS (node_major v) <> Undefined ->
  _entryPoints c = Some entries ->
  exists c' new,
    Serverless.build_done o v logger c log = (JS.Ok tt, c', (log ++ new)%list)
    /\ helper_calls new
       = (packaging_events o logger c' entries
            ++ [ WriteJson (new_URL "./config.json" (outDir (_config c)))
                   manifest;
                 RemoveDir (buildTempFolder c) ])%list
    /\ List.length (helper_calls new)
       = 2 * Nat.max 1 (List.length entries) + 2.
Proof.
  intros Hv He.
  destruct (build_done_explicit o v logger c log entries Hv He)
    as (ws & Hws & Hrun).
  eexists; eexists. split; [exact Hrun|].
  destruct (helper_calls_packaging o logger (merged c) entries) as [Hp Hl].
  assert (Hh : helper_calls
                 (ws ++ packaging_events o logger (merged c) entries
                    ++ [ WriteJson (new_URL "./config.json" (outDir (_config c)))
                           manifest;
                         RemoveDir (buildTempFolder c) ])
               = (packaging_events o logger (merged c) entries
                    ++ [ WriteJson (new_URL "./config.json" (outDir (_config c)))
                           manifest;
                         RemoveDir (buildTempFolder c) ])%list).
  { unfold helper_calls in *. rewrite !filter_app.
    fold (helper_calls ws). rewrite (helper_calls_of_warnings ws Hws).
    rewrite Hp. reflexivity. }
  split; [exact Hh|]. rewrite Hh, length_app, Hl. simpl. lia.
Qed.


(** ** The later version of the hook *)

Lemma later_build_done_explicit (o : Options) (logger : Logger) (c : Closure)
    (log : list Event) (entries : list (RouteData * URL)) :
  _entryPoints c = Some entries ->
  ServerlessLater.build_done o logger c log
  = (JS.Ok tt, merged c,
     (log ++ packaging_events o logger (merged c) entries
        ++ [ WriteJson (new_URL "./config.json" (outDir (_config c))) manifest;
             RemoveDir (buildTempFolder c) ])%list).
Proof.
  intros He.
  pose proof (merge_step_run c log) as Hm. unfold bindM, get in Hm.
  unfold ServerlessLater.build_done, ServerlessLater.package_functions.
  unfold bindM at 1. unfold bindM at 1. unfold get at 1.
  unfold bindM at 1. rewrite Hm.
  unfold bindM at 1. unfold get at 1.
  rewrite merged_entryPoints, He.
  destruct entries as [|e rest].
  - unfold createFunctionFolder, bindM, emit, ret, get, packaging_events,
      folder_of. simpl.
    rewrite merged_config, merged_buildTempFolder.
    rewrite <- !app_assoc. reflexivity.
  - rewrite each_entry_run. unfold bindM, get, emit, packaging_events. simpl.
    rewrite merged_config, merged_buildTempFolder.
    rewrite <- !app_assoc. reflexivity.
Qed.

(** X14: the later version of astro:build:done is the first one without
    [validateRuntime]: where the first accepts the Node.js version, it
    runs as the later one does after the runtime warnings; where the
    first throws on the version, the later one completes the build. *)
Theorem later_build_done_drops_validateRuntime
    (o : Options) (v : string) (logger : Logger) (c : Closure)
    (log : list Event) (entries : list (RouteData * URL)) :
  _entryPoints c = Some entries ->
  (SUPPORTED_NODE_VERSIONS (node_major v) <> Undefined ->
   exists warnings,
     Forall is_warning warnings
     /\ Serverless.build_done o v logger c log
        = ServerlessLater.build_done o logger c (log ++ warnings)%list)
  /\ (SUPPORTED_NODE_VERSIONS (node_major v) = Undefined ->
      fst (fst (Serverless.build_done o v logger c log))
      = JS.Throw (TypeError "Cannot read properties of undefined (reading 'status')")
      /\ fst (fst (ServerlessLater.build_done o logger c log)) = JS.Ok tt).
Proof.
  intros He. split.
  - intros Hv.
    destruct (build_done_explicit o v logger c log entries Hv He)
      as (ws & Hws & Hrun).
    exists ws. split; [exact Hws|].
    rewrite Hrun, (later_build_done_explicit o logger c _ entries He).
    now rewrite <- !app_assoc.
  - intros Hv. split.
    + pose proof (merge_step_run c log) as Hm. unfold bindM, get in Hm.
      unfold Serverless.build_done, Serverless.package_functions.
      unfold bindM at 1. unfold bindM at 1. unfold get at 1.
      unfold bindM at 1. rewrite Hm.
      unfold bindM at 1. unfold get at 1. unfold bindM at 1.
      now rewrite (validateRuntime_undefined v _ _ Hv).
    + now rewrite (later_build_done_explicit o logger c log entries He).
Qed.

End ServerlessMore.

(* ================================================================== *)
(** * More on the static adapter *)
(* ================================================================== *)

Section StaticMore.

Import Host.
Context `{Api}.

(** X15: the static adapter refuses exactly the server-like outputs at
    astro:config:done; a build then empties [getOutput(root)] before
    anything is written and ends with config.json in that directory,
    while the site itself is directed to its subdirectory static/. *)
Theorem static_build_empties_before_writing
    (isServerLikeOutput : Static.AstroConfig -> bool)
    (config : Static.AstroConfig) (log : list Event) :
  let out := getOutput (Static.root config) in
  (Static.config_done isServerLikeOutput config
   = JS.Ok {| Static._config := config |}
   <-> isServerLikeOutput config = false)
  /\ (isServerLikeOutput config = true ->
      Static.config_done isServerLikeOutput config
      = JS.Throw (PlainError "@zeabur/astro-adapter/static should be used with output: 'static'"))
  /\ (exists value,
         StaticSetup.build {| Static._config := config |} log
         = (JS.Ok tt, {| Static._config := config |},
            (log ++ [EmptyDir out;
                     WriteJson (new_URL "./config.json" out) value])%list))
  /\ StaticSetup.up_outDir (StaticSetup.config_setup (Static.root config))
     = new_URL "./static/" out.
Proof.
  intros out. unfold Static.config_done.
  destruct (isServerLikeOutput config); repeat split;
    try discriminate; try reflexivity;
    try (eexists; unfold StaticSetup.build, Static.build_start,
           Static.build_done, bindM, get, emit; simpl;
         rewrite <- app_assoc; reflexivity).
Qed.

End StaticMore.

(* ================================================================== *)
(** * More on the serverless entry point *)
(* ================================================================== *)

Section EntrypointMore.

Import Entrypoint.
Context `{Runtime}.

(** X16: a request that [getRequest] rejects with an error object is
    always answered with a status that is not 0 and a body that is not
    empty: the error's [status] and [reason] when they are set and
    truthy, 400 and Invalid request body otherwise; nothing of the
    response passed in survives. *)
Theorem rejected_request_gets_an_answer
    (req : IncomingMessage) (res : ServerResponse)
    (name : string) (status : option Z) (reason : option string) :
  getRequest ("https://" ++ host_text req) req
  = JS.Throw (Exception name status reason) ->
  exists code body,
    handler req res
    = (JS.Ok tt, {| statusCode := code; ended := Some body |})
    /\ code <> 0%Z
    /\ body <> EmptyString
    /\ code = match status with
              | Some 0%Z | None => 400%Z
              | Some s => s
              end
    /\ body = match reason with
              | Some EmptyString | None => "Invalid request body"
              | Some r => r
              end.
Proof.
  intros Hg. unfold handler. rewrite Hg. simpl.
  eexists; eexists. split; [reflexivity|].
  repeat split.
  - unfold status_or_400. destruct status as [s|]; [|discriminate].
    destruct (Z.eqb_spec s 0); [discriminate | assumption].
  - destruct reason as [[|c r]|]; discriminate.
  - unfold status_or_400. destruct status as [[|s|s]|]; reflexivity.
  - destruct reason as [[|c r]|]; reflexivity.
Qed.

(** X17: when every call succeeds, the handler's outcome is that of
    [setResponse] on the response [app.render] gives for the matched
    route, rendered with the locals parsed from the x-astro-locals
    header, or with the empty object when the header is absent or
    empty, in which case [JSON.parse] plays no part. *)
Theorem handler_renders_with_locals
    (req : IncomingMessage) (res : ServerResponse) (request : Request)
    (routeData : option RouteData) (locals : Locals) (response : Response) :
  getRequest ("https://" ++ host_text req) req = JS.Ok request ->
  app_match request = JS.Ok routeData ->
  match headers_get request "x-astro-locals" with
  | Some (String c text) => JSON_parse (String c text) = JS.Ok locals
  | _ => locals = no_locals
  end ->
  app_render request routeData locals = JS.Ok response ->
  handler req res = setResponse response res.
Proof.
  intros Hg Hm Hl Hr. unfold handler. rewrite Hg. unfold respond.
  rewrite Hm. unfold read_locals.
  change Serverless.ASTRO_LOCALS_HEADER with "x-astro-locals".
  destruct (headers_get request "x-astro-locals") as [[|c text]|];
    simpl; [subst locals | rewrite Hl | subst locals]; now rewrite Hr.
Qed.

End EntrypointMore.

(* ================================================================== *)
(** * More on the actions *)
(* ================================================================== *)

Section ActionsMore.

Import Actions.

(** What a call of the comment action does to the world. *)
Lemma comment_cases (f : FormData) (w : World) :
  (exists fields, comment f w = (InputError fields, w))
  \/ (exists e, comment f w = (Failed e, w))
  \/ (exists p a b,
         form_get "postId" f = Some p
         /\ form_get "body" f = Some b
         /\ 10 <= String.length b
         /\ (exists e, In e (blog w) /\ id e = p)
         /\ comment f w
            = (Data {| postId := p; body := b; author := a |},
               {| blog := blog w;
                  Comment := (Comment w
                                ++ [{| postId := p; body := b; author := a |}])%list |})).
Proof.
  unfold comment. destruct (issues f) as [|x l] eqn:Hi.
  - destruct (form_get "postId" f) as [p|] eqn:Hp;
      [|left; now eexists].
    destruct (form_get "author" f) as [a|] eqn:Ha;
      [|left; now eexists].
    destruct (form_get "body" f) as [b|] eqn:Hb;
      [|left; now eexists].
    assert (Hlen : 10 <= String.length b).
    { unfold issues in Hi. rewrite Hp, Ha, Hb in Hi.
      destruct (10 <=? String.length b)%nat eqn:E;
        [now apply Nat.leb_le | simpl in Hi; discriminate Hi]. }
    unfold handler. simpl.
    destruct (find (fun b0 => String.eqb (id b0) p) (blog w)) as [e|] eqn:Hf.
    + right; right. exists p, a, b. repeat split; try assumption.
      exists e. apply find_some in Hf. destruct Hf as [Hin He].
      apply String.eqb_eq in He. now split.
    + right; left. now eexists.
  - left. now eexists.
Qed.

(** X18: the comment action keeps the Comment table well formed: if
    every stored comment belongs to a post of the collection and has a
    body of ten code units or more, the same holds after any call,
    whatever the form. *)
Theorem comment_keeps_table_well_formed (f : FormData) (w : World) :
  Comments.well_formed w -> Comments.well_formed (snd (comment f w)).
Proof.
  intros Hw.
  destruct (comment_cases f w)
    as [[fields E]|[[e E]|(p & a & b & Hp & Hb & Hlen & He & E)]];
    rewrite E; simpl; try exact Hw.
  unfold Comments.well_formed in *. simpl.
  apply Forall_app. split; [exact Hw|].
  constructor; [|constructor]. simpl. split; [exact He | exact Hlen].
Qed.

(** X19: the comment action never changes the blog collection and never
    removes or alters a stored comment: the table after a call is the
    table before, with one row appended exactly when the call returns
    data, and that row is the one returned. *)
Theorem comment_only_appends (f : FormData) (w : World) :
  blog (snd (comment f w)) = blog w
  /\ (exists added,
         Comment (snd (comment f w)) = (Comment w ++ added)%list
         /\ added = match fst (comment f w) with
                    | Data row => [row]
                    | _ => []
                    end).
Proof.
  destruct (comment_cases f w)
    as [[fields E]|[[e E]|(p & a & b & _ & _ & _ & _ & E)]];
    rewrite E; simpl; split; try reflexivity.
  - exists []. now rewrite app_nil_r.
  - exists []. now rewrite app_nil_r.
  - eexists. split; reflexivity.
Qed.

End ActionsMore.

Section LikesFacts.

Import Likes.

Lemma find_after_update (p q : string) (table : list LikesRow) :
  find (matches q) (map (fun r => if matches p r then bump r else r) table)
  = match find (matches q) table with
    | Some r => Some (if matches p r then bump r else r)
    | None => None
    end.
Proof.
  induction table as [|r table IH]; [reflexivity|]. simpl.
  assert (E : matches q (if matches p r then bump r else r) = matches q r)
    by (destruct (matches p r); reflexivity).
  rewrite E. destruct (matches q r); [reflexivity | exact IH].
Qed.

Lemma first_returned (p : string) (table : list LikesRow) :
  hd_error (filter (matches p) table) = find (matches p) table.
Proof.
  induction table as [|r table IH]; [reflexivity|]. simpl.
  destruct (matches p r); [reflexivity | exact IH].
Qed.

Lemma update_keeps_posts (p : string) (table : list LikesRow) :
  map postId (map (fun r => if matches p r then bump r else r) table)
  = map postId table.
Proof.
  rewrite map_map. apply map_ext. intros r. now destruct (matches p r).
Qed.

Lemma update_without_match (p : string) (table : list LikesRow) :
  find (matches p) table = None ->
  map (fun r => if matches p r then bump r else r) table = table.
Proof.
  induction table as [|r table IH]; [reflexivity|]. simpl.
  destruct (matches p r); [discriminate|]. intros Hf. now rewrite IH.
Qed.

Lemma filter_after_update (p : string) (table : list LikesRow) :
  filter (matches p) (map (fun r => if matches p r then bump r else r) table)
  = map bump (filter (matches p) table).
Proof.
  induction table as [|r table IH]; [reflexivity|]. simpl.
  destruct (matches p r) eqn:Hm.
  - change (matches p (bump r)) with (matches p r). rewrite Hm. simpl.
    now rewrite IH.
  - rewrite Hm. exact IH.
Qed.

Lemma filter_absent (p : string) (table : list LikesRow) :
  ~ In p (map postId table) -> filter (matches p) table = [].
Proof.
  induction table as [|r table IH]; [reflexivity|]. simpl. intros Hn.
  unfold matches at 1. destruct (String.eqb_spec (postId r) p) as [E|_].
  - elim Hn. now left.
  - apply IH. intros Hi. apply Hn. now right.
Qed.

(** With one row per post, the update returns the one row of the post. *)
Lemma filter_unique (p : string) (table : list LikesRow) (r : LikesRow) :
  NoDup (map postId table) ->
  find (matches p) table = Some r ->
  filter (matches p) table = [r].
Proof.
  induction table as [|x table IH]; [discriminate|]. simpl.
  intros Hd Hf. inversion Hd as [|? ? Hx Hd']; subst.
  destruct (matches p x) eqn:Hm.
  - injection Hf as <-. f_equal. apply filter_absent.
    unfold matches in Hm. apply String.eqb_eq in Hm. now rewrite <- Hm.
  - now apply IH.
Qed.

(** The run of [like] on a post that has a row, in a table with one row
    per post: the update is stored whatever the new count is, and the
    count is returned when it is a safe integer. *)
Lemma like_run (p : string) (table : list LikesRow) (n : Z) :
  NoDup (map postId table) ->
  likes_of p table = Some n ->
  like p table
  = (if safe (n + 1) then JS.Ok (n + 1)%Z else JS.Throw "RangeError",
     map (fun r => if matches p r then bump r else r) table)
  /\ likes_of p (map (fun r => if matches p r then bump r else r) table)
     = Some (n + 1)%Z.
Proof.
  unfold likes_of, like, update_returning. intros Hd Hn.
  rewrite filter_after_update, find_after_update.
  destruct (find (matches p) table) as [r|] eqn:Hf; [|discriminate].
  injection Hn as <-.
  rewrite (filter_unique p table r Hd Hf).
  assert (Hm : matches p r = true) by (apply find_some in Hf; tauto).
  rewrite Hm. split; [|reflexivity].
  simpl. rewrite andb_true_r. now destruct (safe (likes r + 1)).
Qed.

(** X20: in a table with one row per post, liking a post that has a
    row and whose new count is a safe integer adds exactly one to its
    likes and returns the new count; the likes of every other post, the
    posts of the table and their order are unchanged. *)
Theorem like_adds_one (p : string) (table : list LikesRow) (n : Z) :
  NoDup (map postId table) ->
  likes_of p table = Some n ->
  safe (n + 1) = true ->
  exists table',
    like p table = (JS.Ok (n + 1)%Z, table')
    /\ likes_of p table' = Some (n + 1)%Z
    /\ (forall q, q <> p -> likes_of q table' = likes_of q table)
    /\ map postId table' = map postId table.
Proof.
  intros Hd Hn Hs. destruct (like_run p table n Hd Hn) as [Hrun Hafter].
  rewrite Hs in Hrun.
  eexists. split; [exact Hrun|]. split; [exact Hafter|]. split.
  - intros q Hq. unfold likes_of. rewrite find_after_update.
    destruct (find (matches q) table) as [r|] eqn:Hf; [|reflexivity].
    apply find_some in Hf. destruct Hf as [_ Hm].
    unfold matches in *. apply String.eqb_eq in Hm.
    destruct (String.eqb_spec (postId r) p) as [E|_]; [congruence|].
    reflexivity.
  - apply update_keeps_posts.
Qed.

(** X21: liking a post that has no row in the Likes table throws, on
    the read of [likes] off the undefined row, and leaves the table as
    it was. *)
Theorem like_of_unknown_post_throws (p : string) (table : list LikesRow) :
  likes_of p table = None ->
  like p table
  = (JS.Throw "TypeError: Cannot destructure property 'likes' of undefined",
     table).
Proof.
  unfold likes_of, like, update_returning. intros Hn.
  destruct (find (matches p) table) as [r|] eqn:Hf; [discriminate|].
  rewrite (update_without_match p table Hf).
  pose proof (first_returned p table) as Hh. rewrite Hf in Hh.
  destruct (filter (matches p) table); [reflexivity | discriminate].
Qed.

(** X22: likes add up: in a table with one row per post, two likes of
    the same post in a row return its count plus one and then plus
    two, as long as both counts are safe integers. *)
Theorem like_twice_adds_two (p : string) (table : list LikesRow) (n : Z) :
  NoDup (map postId table) ->
  likes_of p table = Some n ->
  safe (n + 1) = true ->
  safe (n + 2) = true ->
  exists table1 table2,
    like p table = (JS.Ok (n + 1)%Z, table1)
    /\ like p table1 = (JS.Ok (n + 2)%Z, table2)
    /\ likes_of p table2 = Some (n + 2)%Z.
Proof.
  intros Hd Hn Hs1 Hs2.
  destruct (like_run p table n Hd Hn) as [Hrun Hafter].
  assert (Hd1 : NoDup (map postId
                         (map (fun r => if matches p r then bump r else r)
                              table)))
    by now rewrite update_keeps_posts.
  destruct (like_run p _ _ Hd1 Hafter) as [Hrun2 Hafter2].
  replace (n + 1 + 1)%Z with (n + 2)%Z in * by lia.
  rewrite Hs1 in Hrun. rewrite Hs2 in Hrun2.
  eexists; eexists. split; [exact Hrun|]. split; [exact Hrun2 | exact Hafter2].
Qed.


End LikesFacts.

(* ================================================================== *)
(** * More on the Vue integration *)
(* ================================================================== *)

Section VueMore.

Import VueConfig.

Lemma line_feeds_append (a b : string) :
  line_feeds (a ++ b) = line_feeds a + line_feeds b.
Proof.
  induction a as [|c a IH]; [reflexivity|]. simpl. rewrite IH. lia.
Qed.

Lemma json_escape_one_line (c : ascii) : line_feeds (JS.json_escape c) = 0.
Proof.
  destruct c as [[] [] [] [] [] [] [] []]; reflexivity.
Qed.

Lemma JSON_stringify_one_line (s : string) :
  line_feeds (JS.JSON_stringify s) = 0.
Proof.
  unfold JS.JSON_stringify. rewrite !line_feeds_append.
  assert (E : line_feeds (JS.json_escape_all s) = 0).
  { induction s as [|c s IH]; [reflexivity|]. simpl.
    now rewrite line_feeds_append, json_escape_one_line, IH. }
  rewrite E. reflexivity.
Qed.

Lemma import_line_adds_one (entry code : string) :
  line_feeds ("import " ++ JS.JSON_stringify entry ++ ";" ++ JS.nl ++ code)
  = 1 + line_feeds code.
Proof.
  rewrite !line_feeds_append, JSON_stringify_one_line. reflexivity.
Qed.

(** X23: [transform] changes a module only when an app entry point is
    set and the module id ends in .vue; it then puts one line in front
    of the code, the import of the entry point, and leaves the code
    itself as it is: the result has exactly one more line feed. *)
Theorem transform_prepends_one_import_line (p : Vue.Plugin) (code id : string) :
  (transform p code id <> None
   <-> JS.truthy (Vue.appEntrypoint p) = true /\ JS.endsWith id ".vue" = true)
  /\ (forall out,
         transform p code id = Some out ->
         exists entry,
           Vue.appEntrypoint p = Some entry
           /\ out = "import " ++ JS.JSON_stringify entry ++ ";" ++ JS.nl ++ code
           /\ line_feeds out = 1 + line_feeds code).
Proof.
  unfold transform.
  destruct (Vue.appEntrypoint p) as [entry|].
  - destruct (JS.truthy (Some entry)); simpl negb; cbv iota.
    + destruct (JS.endsWith id ".vue").
      * split; [split; [now split | discriminate]|].
        intros out E. injection E as <-. exists entry.
        split; [reflexivity|]. split; [reflexivity|].
        apply import_line_adds_one.
      * split; [split; [intros E; now elim E | intros [_ E]; discriminate E]|].
        intros out E. discriminate E.
    + split; [split; [intros E; now elim E | intros [E _]; discriminate E]|].
      intros out E. discriminate E.
  - simpl.
    split; [split; [intros E; now elim E | intros [E _]; discriminate E]|].
    intros out E. discriminate E.
Qed.

Variables JsxOptions DevToolsOptions TemplateOptions : Type.

(** X24: the Vite configuration always starts with the Vue plugin and
    the virtual-app plugin, both built from options whose
    [transformAssetUrls] is false; the JSX plugin and the JSX renderer
    are added together, exactly when [jsx] is truthy; the devtools
    plugin is added exactly in dev with [devtools] truthy, always
    appended to the virtual module. *)
Theorem vue_setup_adds_plugins_and_renderers
    (command : string)
    (options : option (Options JsxOptions DevToolsOptions TemplateOptions)) :
  let want_jsx := flag_truthy (option_flag options jsx) in
  let want_devtools :=
    String.eqb command "dev" && flag_truthy (option_flag options devtools) in
  let renderers := fst (config_setup command options) in
  let cfg := snd (config_setup command options) in
  firstn 2 (plugins cfg)
  = [vue (vueOptions options); virtualAppEntrypoint (vueOptions options)]
  /\ vue_transformAssetUrls (vueOptions options) = false
  /\ existsb is_vueJsx (plugins cfg) = want_jsx
  /\ (In getJsxRenderer renderers <-> want_jsx = true)
  /\ hd_error renderers = Some getRenderer
  /\ existsb is_vueDevTools (plugins cfg) = want_devtools
  /\ (forall d a, In (vueDevTools d a) (plugins cfg) ->
                  a = Vue.VIRTUAL_MODULE_ID)
  /\ List.length (plugins cfg)
     = 2 + (if want_jsx then 1 else 0) + (if want_devtools then 1 else 0).
Proof.
  intros want_jsx want_devtools renderers cfg.
  subst renderers cfg. unfold config_setup, getViteConfiguration. simpl.
  fold want_jsx. fold want_devtools.
  destruct want_jsx, want_devtools; simpl; repeat split;
    try reflexivity; try discriminate; try tauto;
    try (intros [E|[E|[]]]; discriminate E);
    try (intros [E|[]]; discriminate E);
    intros d a Hin;
    repeat (destruct Hin as [E|Hin]; [try discriminate E; now injection E|]);
    destruct Hin.
Qed.

(** X25: the hooks [config] and [configResolved] can run in either
    order, and a second [configResolved] with the same root changes
    nothing; an entry point that does not start with a dot is kept as
    written, whatever the root. *)
Theorem vue_hooks_commute
    (path_resolve : string -> string -> string) (options : option Vue.Options)
    (command config_root : string) (p : Vue.Plugin) :
  Vue.config command (Vue.configResolved path_resolve options config_root p)
  = Vue.configResolved path_resolve options config_root (Vue.config command p)
  /\ Vue.configResolved path_resolve options config_root
       (Vue.configResolved path_resolve options config_root p)
     = Vue.configResolved path_resolve options config_root p
  /\ (forall entry,
         Vue.configured options = Some entry ->
         JS.truthy (Some entry) = true ->
         JS.startsWith entry "." = false ->
         Vue.appEntrypoint
           (Vue.configResolved path_resolve options config_root p)
         = Some entry).
Proof.
  split; [reflexivity|]. split.
  - unfold Vue.configResolved. simpl.
    destruct (JS.truthy (Vue.configured options)); [|reflexivity].
    destruct (Vue.configured options); reflexivity.
  - intros entry He Ht Hs. unfold Vue.configResolved. simpl.
    now rewrite He, Ht, Hs.
Qed.

(** X26: [load] answers exactly the resolved id: never the virtual id
    as written in an import, never any other id; and [resolveId] does
    not resolve its own result again. *)
Theorem load_answers_only_the_resolved_id (p : Vue.Plugin) (id : string) :
  (Vue.load p id <> None <-> id = Vue.RESOLVED_VIRTUAL_MODULE_ID)
  /\ Vue.load p Vue.VIRTUAL_MODULE_ID = None
  /\ (forall r, Vue.resolveId id = Some r ->
                Vue.load p r <> None /\ Vue.resolveId r = None).
Proof.
  split; [|split].
  - unfold Vue.load.
    destruct (String.eqb_spec id Vue.RESOLVED_VIRTUAL_MODULE_ID) as [E|E].
    + split; [intros _; exact E|]. intros _.
      destruct (JS.truthy (Vue.appEntrypoint p)); [|discriminate].
      destruct (Vue.appEntrypoint p); discriminate.
    + split; [intros N; now elim N | intros N; contradiction].
  - reflexivity.
  - intros r Hr. unfold Vue.resolveId in Hr.
    destruct (String.eqb id Vue.VIRTUAL_MODULE_ID); [|discriminate].
    injection Hr as <-. split; [|reflexivity].
    unfold Vue.load. rewrite String.eqb_refl.
    destruct (JS.truthy (Vue.appEntrypoint p)); [|discriminate].
    destruct (Vue.appEntrypoint p); discriminate.
Qed.

End VueMore.

(* ================================================================== *)
(** * More runs on the sample data *)
(* ================================================================== *)

Section MoreRuns.

Import Host.

(** Node.js 20 gets the two beta warnings. *)
Lemma validateRuntime_node20_run :
  @Serverless.validateRuntime Sample.api unit "v20.11.1" tt []
  = (JS.Ok tt, tt,
     [ ConsoleWarn (H := Sample.api)
         "[@zeabur/astro-adapter/serverless] The local Node.js version (20) is currently in beta for Vercel Serverless Functions.";
       ConsoleWarn (H := Sample.api)
         "[@zeabur/astro-adapter/serverless] Make sure to update your Vercel settings to use 20." ]).
Proof.
  apply (@validateRuntime_by_major Sample.api unit "v20.11.1" tt []).
  right; right; left. reflexivity.
Defined.

(** Node.js 21 is rejected. *)
Lemma validateRuntime_node21_run :
  @Serverless.validateRuntime Sample.api unit "v21.0.0" tt []
  = (JS.Throw (TypeError "Cannot read properties of undefined (reading 'status')"),
     tt, []).
Proof.
  apply (@validateRuntime_rejects_other_numbers Sample.api unit "v21.0.0").
  - reflexivity.
  - intros Hin. vm_compute in Hin.
    destruct Hin as [E|[E|[E|[]]]]; discriminate E.
Defined.

(** Without astro:build:ssr the hook throws on [_entryPoints.size]. *)
Lemma build_done_before_build_ssr_run :
  exists warnings,
    @Serverless.build_done Sample.api Sample.options "v18.17.0" tt
      Sample.closure []
    = (JS.Throw (TypeError "Cannot read properties of undefined (reading 'size')"),
       Sample.closure, warnings).
Proof.
  destruct (@build_done_needs_build_ssr Sample.api Sample.options "v18.17.0"
              tt Sample.closure [])
    as (ws & _ & Hrun & _).
  - intros E. vm_compute in E. discriminate E.
  - reflexivity.
  - exists ws. exact Hrun.
Defined.

(** On Node.js 21 the hook stops before any helper call. *)
Lemma build_done_on_node21_run :
  @Serverless.build_done Sample.api Sample.options "v21.0.0" tt
    Sample.built []
  = (JS.Throw (TypeError "Cannot read properties of undefined (reading 'status')"),
     Sample.built, []).
Proof.
  apply (proj1 (@build_done_stops_on_rejected_runtime Sample.api
                  Sample.options "v21.0.0" tt Sample.built [] eq_refl)).
Defined.

(** The blog page's function name gives back its component. *)
Lemma page_function_name_run :
  "src/pages/" ++ @Serverless.func Sample.api Sample.blog_route
                    Sample.blog_entry
  = "src/pages/blog/[slug].astro".
Proof.
  apply (proj1 (@page_function_name_round_trip Sample.api Sample.blog_route
                  Sample.blog_entry eq_refl)).
Defined.

(** Two injected routes whose entry files share a base name share a
    function. *)
Lemma fallback_names_collide_run :
  @Serverless.func Sample.api Sample.injected_route
    "file:///app/dist/a/entry.feed.astro.mjs"
  = @Serverless.func Sample.api Sample.injected_route
      "file:///app/dist/b/entry.feed.astro.mjs".
Proof.
  apply (proj1 (@fallback_names_collide_on_base_name Sample.api Sample.config
                  Sample.injected_route Sample.injected_route
                  "file:///app/dist/a/entry.feed.astro.mjs"
                  "file:///app/dist/b/entry.feed.astro.mjs"
                  eq_refl eq_refl eq_refl)).
Defined.

(** Two entry points: six helper calls. *)
Lemma build_done_call_order_run :
  exists c' new,
    @Serverless.build_done Sample.api Sample.options "v18.17.0" tt
      Sample.built []
    = (JS.Ok tt, c', new)
    /\ List.length (@ServerlessSetup.helper_calls Sample.api new) = 6.
Proof.
  destruct (@build_done_call_order Sample.api Sample.options "v18.17.0" tt
              Sample.built [] Sample.entryPoints)
    as (c' & new & Hrun & _ & Hlen).
  - intros E. vm_compute in E. discriminate E.
  - reflexivity.
  - exists c', new. split; [exact Hrun | exact Hlen].
Defined.


(** On Node.js 20 the first version is the later one after the
    warnings. *)
Lemma later_version_run :
  exists warnings,
    Forall (@Serverless.is_warning Sample.api) warnings
    /\ @Serverless.build_done Sample.api Sample.options "v20.11.1" tt
         Sample.built []
       = @ServerlessLater.build_done Sample.api Sample.options tt
           Sample.built warnings.
Proof.
  apply (proj1 (@later_build_done_drops_validateRuntime Sample.api
                  Sample.options "v20.11.1" tt Sample.built []
                  Sample.entryPoints eq_refl)).
  intros E. vm_compute in E. discriminate E.
Defined.

(** An oversized request is answered with 413 and the error's reason. *)
Lemma rejected_request_run :
  @Entrypoint.handler Sample2.too_large Sample.request Sample.response
  = (JS.Ok tt,
     {| Entrypoint.statusCode := 413;
        Entrypoint.ended := Some "Exceeded Content-Length limit" |}).
Proof.
  destruct (@rejected_request_gets_an_answer Sample2.too_large
              Sample.request Sample.response "Error" (Some 413%Z)
              (Some "Exceeded Content-Length limit") eq_refl)
    as (code & body & Hh & _ & _ & Hc & Hb).
  rewrite Hh, Hc, Hb. reflexivity.
Defined.

(** The locals of the header reach the renderer. *)
Lemma handler_with_locals_run :
  @Entrypoint.handler Sample2.serving Sample.request Sample.response
  = (JS.Ok tt,
     {| Entrypoint.statusCode := 200;
        Entrypoint.ended := Some "page for {user:1}" |}).
Proof.
  apply (@handler_renders_with_locals Sample2.serving Sample.request
           Sample.response "https://example.com" (Some "/blog") "{user:1}"
           "page for {user:1}");
    reflexivity.
Defined.

(** The sample world stays well formed after a comment. *)
Lemma comment_keeps_well_formed_run :
  Comments.well_formed (snd (Actions.comment Sample.form Sample.world)).
Proof.
  apply (comment_keeps_table_well_formed Sample.form Sample.world).
  constructor.
Defined.

Lemma sample_posts_distinct :
  NoDup (map Likes.postId Sample2.likes_table).
Proof.
  constructor; [intros [E|[]]; discriminate E|].
  constructor; [intros []|]. constructor.
Defined.

(** The fixture's test: ten likes become eleven. *)
Lemma like_run_on_first_post :
  exists table',
    Likes.like "first-post" Sample2.likes_table = (JS.Ok 11%Z, table')
    /\ Likes.likes_of "second-post" table' = Some 3%Z.
Proof.
  destruct (like_adds_one "first-post" Sample2.likes_table 10
              sample_posts_distinct eq_refl eq_refl)
    as (table' & Hrun & _ & Hother & _).
  exists table'. split; [exact Hrun|].
  rewrite (Hother "second-post"); [reflexivity | discriminate].
Defined.

Lemma like_of_bogus_post_run :
  Likes.like "bogus" Sample2.likes_table
  = (JS.Throw "TypeError: Cannot destructure property 'likes' of undefined",
     Sample2.likes_table).
Proof.
  apply (like_of_unknown_post_throws "bogus" Sample2.likes_table).
  reflexivity.
Defined.

Lemma like_twice_run :
  exists table1 table2,
    Likes.like "first-post" Sample2.likes_table = (JS.Ok 11%Z, table1)
    /\ Likes.like "first-post" table1 = (JS.Ok 12%Z, table2).
Proof.
  destruct (like_twice_adds_two "first-post" Sample2.likes_table 10
              sample_posts_distinct eq_refl eq_refl eq_refl)
    as (t1 & t2 & H1 & H2 & _).
  exists t1, t2. split; [exact H1 | exact H2].
Defined.



End MoreRuns.
